(** * seahorse-sharing: the HKP key lookup server and the DNS-SD publisher

    A shallow embedding of [daemon/seahorse-hkp-server.c] (module [Hkp]) and of
    [daemon/seahorse-sharing.c] (module [Sharing]), followed by the properties
    of the two that the specification states.

    Conventions.
    - A [const gchar*] is a Rocq [string]; a pointer that may be [NULL] is an
      [option string].  C strings hold no NUL byte ([cstring]); where the
      source measures a buffer with [strlen] the cut at the first NUL is
      written out ([strlen_prefix]).
    - [int] and [guint] values are [Z].
    - A [GHashTable] of query arguments is a [gmap string string].
    - Calls into GPGME, libsoup and Avahi whose results the code branches on
      are read from an environment record or carried by the event. *)

From Stdlib Require Import ZArith Ascii String List Lia DecimalString.
From Stdlib Require DecimalPos DecimalZ.
From stdpp Require Import base gmap strings list.

Local Open Scope string_scope.
Local Open Scope Z_scope.

(** ** C strings and printf conversions *)

Module CStr.

Definition NUL : ascii := "000"%char.
Definition dquote : string := String "034"%char "".
Definition CRLF : string := String "013"%char (String "010"%char "").

(** No NUL byte occurs: the string is the content of a C string. *)
Fixpoint no_nul (s : string) : bool :=
  match s with
  | EmptyString => true
  | String c r => negb (Ascii.eqb c NUL) && no_nul r
  end.

Definition cstring (s : string) : Prop := no_nul s = true.

(** What [strlen] sees of a buffer: the bytes before the first NUL. *)
Fixpoint strlen_prefix (s : string) : string :=
  match s with
  | EmptyString => EmptyString
  | String c r => if Ascii.eqb c NUL then EmptyString else String c (strlen_prefix r)
  end.

Definition strlen (s : string) : nat := String.length (strlen_prefix s).

(** [%d] of an [int]. *)
Definition fmt_d (n : Z) : string := NilZero.string_of_int (Z.to_int n).

Fixpoint spaces (n : nat) : string :=
  match n with
  | O => ""
  | S k => String " "%char (spaces k)
  end.

Definition pad_left (w : nat) (s : string) : string :=
  spaces (w - String.length s) +:+ s.

Definition pad_zero (w : nat) (s : string) : string :=
  String.concat "" (repeat "0" (w - String.length s)) +:+ s.

(** [% 5d]: a blank where the sign of a non-negative number would go, the
    whole right-aligned in a field of five. *)
Definition fmt_space_5d (n : Z) : string :=
  pad_left 5 ((if n <? 0 then "" else " ") +:+ fmt_d n).

(** A [guint] passed where [%d] expects an [int]. *)
Definition int_of_guint (n : Z) : Z :=
  let m := n mod 2 ^ 32 in if m <? 2 ^ 31 then m else m - 2 ^ 32.

Definition g_ascii_tolower (c : ascii) : ascii :=
  let n := nat_of_ascii c in
  if (65 <=? n)%nat && (n <=? 90)%nat then ascii_of_nat (n + 32) else c.

(** [g_ascii_strcasecmp]: the difference of the first pair of bytes that
    differ after ASCII lowering; where one string ends first, the difference
    of the bytes there (the terminating NUL counting as 0). *)
Fixpoint g_ascii_strcasecmp (s1 s2 : string) : Z :=
  match s1, s2 with
  | EmptyString, EmptyString => 0
  | EmptyString, String c2 _ => - Z.of_nat (nat_of_ascii c2)
  | String c1 _, EmptyString => Z.of_nat (nat_of_ascii c1)
  | String c1 r1, String c2 r2 =>
      let a := Z.of_nat (nat_of_ascii (g_ascii_tolower c1)) in
      let b := Z.of_nat (nat_of_ascii (g_ascii_tolower c2)) in
      if a =? b then g_ascii_strcasecmp r1 r2 else a - b
  end.

Definition g_ascii_toupper (c : ascii) : ascii :=
  let n := nat_of_ascii c in
  if (97 <=? n)%nat && (n <=? 122)%nat then ascii_of_nat (n - 32) else c.

Definition INT_MAX : Z := 2 ^ 31 - 1.

(** An [int] after arithmetic, wrapped to 32 bits. *)
Definition int_wrap (n : Z) : Z := (n + 2 ^ 31) mod 2 ^ 32 - 2 ^ 31.

(** [!p || !p[0]] for a string pointer [p]. *)
Definition null_or_empty (p : option string) : bool :=
  match p with
  | None => true
  | Some "" => true
  | Some _ => false
  end.

(** Is [p] a substring of [s]? *)
Fixpoint contains (p s : string) : bool :=
  String.prefix p s ||
  match s with
  | EmptyString => false
  | String _ r => contains p r
  end.

(** The C library's [gmtime_r] as far as [%Y/%m/%d] needs it: the civil date
    (year, month, day) of a count of seconds since the epoch, UTC. *)
Definition gmtime_ymd (t : Z) : Z * Z * Z :=
  let z := t / 86400 + 719468 in
  let era := z / 146097 in
  let doe := z - era * 146097 in
  let yoe := (doe - doe / 1460 + doe / 36524 - doe / 146096) / 365 in
  let doy := doe - (365 * yoe + yoe / 4 - yoe / 100) in
  let mp := (5 * doy + 2) / 153 in
  let d := doy - (153 * mp + 2) / 5 + 1 in
  let m := if mp <? 10 then mp + 3 else mp - 9 in
  let y := yoe + era * 400 in
  (if m <=? 2 then y + 1 else y, m, d).

(** [strftime (t, max, "%Y/%m/%d", &dtm)] into a zeroed buffer of [max]
    bytes.  A result that does not fit is not stored; C leaves the content
    of the buffer open then, and the zeroed buffer is what is taken here. *)
Definition strftime_ymd (max : nat) (t : Z) : string :=
  let '(y, m, d) := gmtime_ymd t in
  let s := fmt_d y +:+ "/" +:+ pad_zero 2 (fmt_d m) +:+ "/" +:+ pad_zero 2 (fmt_d d) in
  if (String.length s <? max)%nat then s else "".

End CStr.
Import CStr.

(** ** daemon/seahorse-hkp-server.c *)

Module Hkp.

(** *** GPGME key data, as the renderer reads it *)

Inductive gpgme_pubkey_algo_t :=
  | GPGME_PK_RSA | GPGME_PK_RSA_E | GPGME_PK_RSA_S
  | GPGME_PK_ELG | GPGME_PK_ELG_E
  | GPGME_PK_DSA
  | GPGME_PK_OTHER (code : Z).

Record gpgme_key_sig_t := {
  sig_keyid : string;
  sig_name : option string;
  sig_email : option string }.

Record gpgme_user_id_t := {
  uid_name : option string;
  uid_email : option string;
  signatures : list gpgme_key_sig_t }.

Record gpgme_subkey_t := {
  pubkey_algo : gpgme_pubkey_algo_t;
  sk_length : Z;          (* unsigned int length *)
  fpr : string;
  timestamp : Z }.

(** [subkeys] and [uids] are the linked lists hanging off the key; an empty
    list is the [NULL] pointer. *)
Record gpgme_key_t := {
  revoked : bool;
  subkeys : list gpgme_subkey_t;
  uids : list gpgme_user_id_t }.

(** *** The response templates *)

Definition HKP_ERROR_RESPONSE (details : string) : string :=
  "<title>Public Key Server -- Error</title><p>" +:+ CRLF +:+
  "<h1>Public Key Server -- Error</h1><p>" +:+ CRLF +:+
  details.

Definition HKP_VINDEX_PREFIX (a b : string) : string :=
  "<title>Public Key Server -- Verbose Index ``" +:+ a +:+ "''</title><p>" +:+
  "<h1>Public Key Server -- Verbose Index ``" +:+ b +:+ "''</h1><p>" +:+
  "<pre>".

Definition HKP_INDEX_PREFIX (a b : string) : string :=
  "<title>Public Key Server -- Verbose Index ``" +:+ a +:+ "''</title><p>" +:+
  "<h1>Public Key Server -- Verbose Index ``" +:+ b +:+ "''</h1><p>" +:+
  "<pre>Type bits /keyID    Date       User ID" +:+ CRLF.

Definition HKP_INDEX_SUFFIX : string := "</pre>".

Definition HKP_INDEX_REVOKED : string := "*** KEY REVOKED ***".

Definition HKP_INDEX_UIDNAME (name : string) : string := name +:+ " ".

Definition HKP_INDEX_UIDEMAIL (name keyid email : string) : string :=
  name +:+ " &lt;<a href=" +:+ dquote +:+ "/pks/lookup?op=index&search=0x" +:+ keyid +:+
  dquote +:+ ">" +:+ email +:+ "</a>&gt;".

Definition HKP_INDEX_KEY_LINE (bits : Z) (algo link id date uid : string) : string :=
  "pub " +:+ fmt_space_5d bits +:+ algo +:+ "/<a href=" +:+ dquote +:+
  "/pks/lookup?op=get&search=0x" +:+ link +:+ dquote +:+ ">" +:+ id +:+ "</a> " +:+
  date +:+ " " +:+ uid +:+ CRLF.

Definition HKP_INDEX_FPR_LINE (f : string) : string :=
  "     Key fingerprint = " +:+ f +:+ CRLF.

Definition HKP_INDEX_UID_LINE (uid : string) : string :=
  "                               " +:+ uid +:+ CRLF.

Definition HKP_INDEX_SIG_LINE (link id uid : string) : string :=
  "sig        <a href=" +:+ dquote +:+ "/pks/lookup?op=get&search=0x" +:+ link +:+
  dquote +:+ ">" +:+ id +:+ "</a>             " +:+ uid +:+ CRLF.

Definition HKP_GET_PREFIX (a b : string) : string :=
  "<title>Public Key Server -- Get ``" +:+ a +:+ "''</title><p>" +:+ CRLF +:+
  "<h1>Public Key Server -- Get ``" +:+ b +:+ "''</h1><p>" +:+ CRLF +:+
  "<pre>" +:+ CRLF.

Definition HKP_GET_SUFFIX : string := CRLF +:+ "</pre>".

Definition HKP_ADD_RESPONSE : string :=
  "<title>Public Key Server -- Error</title><p>" +:+ CRLF +:+
  "<h1>Public Key Server -- Error</h1><p>" +:+ CRLF +:+
  "Adding of keys not allowed".

Definition HKP_NOTFOUND_RESPONSE : string :=
  "<HEAD><TITLE>404 Not Found</TITLE></HEAD><BODY>unknown uri in pks request</BODY>" +:+ CRLF.

(** *** Formatting helpers *)

(** The last [len] bytes of [str], all of it when it is no longer. *)
Definition last_x (str : string) (len : nat) : string :=
  let l := String.length str in
  if (len <? l)%nat then String.substring (l - len) len str else str.

(** Replaces each of [<>&] and the double quote by its entity. *)
Fixpoint escape_html (str : string) : string :=
  match str with
  | EmptyString => EmptyString
  | String c r =>
      (if Ascii.eqb c "<"%char then "&lt;"
       else if Ascii.eqb c ">"%char then "&gt;"
       else if Ascii.eqb c "&"%char then "&amp;"
       else if Ascii.eqb c "034"%char then "&quot;"
       else String c "") +:+ escape_html r
  end.

(** The loop of [format_key_fingerprint]: [i] is the index of the head of
    [raw]. *)
Fixpoint fingerprint_loop (i : nat) (raw : string) : string :=
  match raw with
  | EmptyString => EmptyString
  | String c r =>
      (if (0 <? i)%nat && (i mod 4 =? 0)%nat then " " else "") +:+
      String c (fingerprint_loop (S i) r)
  end.

(** [None] is the [NULL] that [g_return_val_if_fail] returns. *)
Definition format_key_fingerprint (key : gpgme_key_t) : option string :=
  match subkeys key with
  | [] => None
  | sk :: _ => Some (fingerprint_loop 0 (fpr sk))
  end.

Definition format_key_uid (name : option string) (keyid : string)
    (email : option string) : string :=
  let name := if null_or_empty name then None else name in
  let email := if null_or_empty email then None else email in
  match name, email with
  | Some n, Some e => HKP_INDEX_UIDEMAIL n (last_x keyid 8) e
  | Some n, None => HKP_INDEX_UIDNAME n
  | None, _ => ""
  end.

Definition get_key_algo_letter (key : gpgme_key_t) : string :=
  match subkeys key with
  | [] => "?"
  | sk :: _ =>
      match pubkey_algo sk with
      | GPGME_PK_RSA | GPGME_PK_RSA_E | GPGME_PK_RSA_S => "R"
      | GPGME_PK_ELG | GPGME_PK_ELG_E => "E"
      | GPGME_PK_DSA => "D"
      | GPGME_PK_OTHER _ => "?"
      end
  end.

(** The signature lines of one user id (the inner [for] of
    [append_key_info]). *)
Fixpoint append_signatures (response : string) (sig : list gpgme_key_sig_t) : string :=
  match sig with
  | [] => response
  | s :: next =>
      let t := format_key_uid (sig_name s) (sig_keyid s) (sig_email s) in
      append_signatures
        (response +:+ HKP_INDEX_SIG_LINE (last_x (sig_keyid s) 8) (last_x (sig_keyid s) 8) t)
        next
  end.

(** The [for] over the user ids.  The cursor [uid] stays where it is after
    the first pass over a revoked key, so the recursion is on [fuel], one
    unit per pass; [append_key_info] supplies enough of it
    ([append_key_info_loop_fuel]). *)
Fixpoint append_key_info_loop (fuel : nat) (key : gpgme_key_t) (sk : gpgme_subkey_t)
    (verbose fingerprints : bool) (first : bool) (uid : list gpgme_user_id_t)
    (response : string) : string :=
  match fuel, uid with
  | O, _ => response
  | _, [] => response
  | S fuel', u :: next =>
      (* Prepare the UID. REVOKED is treated as UID. *)
      let uidpart :=
        if revoked key then HKP_INDEX_REVOKED
        else format_key_uid (uid_name u) (fpr sk) (uid_email u) in
      let response :=
        if first then
          let t := strftime_ymd 16 (timestamp sk) in
          let response :=
            response +:+
            HKP_INDEX_KEY_LINE (int_of_guint (sk_length sk)) (get_key_algo_letter key)
              (last_x (fpr sk) 8) (last_x (fpr sk) 8) t uidpart in
          if fingerprints then
            response +:+
            HKP_INDEX_FPR_LINE (default "(null)" (format_key_fingerprint key))
          else response
        else response +:+ HKP_INDEX_UID_LINE uidpart in
      if negb first || negb (revoked key) then
        let response :=
          if verbose then append_signatures response (signatures u) else response in
        append_key_info_loop fuel' key sk verbose fingerprints false next response
      else
        append_key_info_loop fuel' key sk verbose fingerprints false uid response
  end.

Definition append_key_info (response : string) (key : gpgme_key_t)
    (verbose fingerprints : bool) : string :=
  match subkeys key, uids key with
  | [], _ => response                  (* g_return_if_fail (key->subkeys != NULL) *)
  | _, [] => response                  (* g_return_if_fail (key->uids != NULL) *)
  | sk :: _, uid =>
      append_key_info_loop (S (List.length uid)) key sk verbose fingerprints true uid response
  end.

(** *** Messages and the GPGME context *)

Definition SOUP_STATUS_NONE : Z := 0.
Definition SOUP_STATUS_OK : Z := 200.
Definition SOUP_STATUS_NOT_FOUND : Z := 404.
Definition SOUP_STATUS_METHOD_NOT_ALLOWED : Z := 405.
Definition SOUP_STATUS_INTERNAL_SERVER_ERROR : Z := 500.
Definition SOUP_METHOD_GET : string := "GET".

Record SoupMessage := {
  method : string;
  status_code : Z;
  response_headers : list (string * string);
  response_content_type : option string;
  response_body : string }.

(** The message a handler receives for a request with the given method. *)
Definition request (m : string) : SoupMessage :=
  {| method := m; status_code := SOUP_STATUS_NONE; response_headers := [];
     response_content_type := None; response_body := "" |}.

Definition soup_message_set_status (msg : SoupMessage) (code : Z) : SoupMessage :=
  {| method := method msg; status_code := code;
     response_headers := response_headers msg;
     response_content_type := response_content_type msg;
     response_body := response_body msg |}.

Definition soup_message_headers_append (msg : SoupMessage) (name value : string) : SoupMessage :=
  {| method := method msg; status_code := status_code msg;
     response_headers := (response_headers msg ++ [(name, value)])%list;
     response_content_type := response_content_type msg;
     response_body := response_body msg |}.

(** The body is the first [len] bytes of [resp]. *)
Definition soup_message_set_response (msg : SoupMessage) (content_type : string)
    (resp : string) (len : nat) : SoupMessage :=
  {| method := method msg; status_code := status_code msg;
     response_headers := response_headers msg;
     response_content_type := Some content_type;
     response_body := String.substring 0 len resp |}.

Definition GPGME_KEYLIST_MODE_LOCAL : Z := 1.
Definition GPGME_KEYLIST_MODE_SIGS : Z := 4.

(** What the GPGME context answers.  [gpgme_op_keylist_next mode pattern] is
    the sequence of keys that successive calls hand out before the first
    call that does not return 0; [gpgme_data_release_and_get_mem pattern] is
    the exported buffer ([None] for [NULL]), its length the [len] that the
    call stores. *)
Record gpgme_ctx_t := {
  gpgme_op_keylist_start : string -> Z;
  gpgme_op_keylist_next : Z -> string -> list gpgme_key_t;
  gpgme_data_new : Z;
  gpgme_op_export : string -> Z;
  gpgme_data_release_and_get_mem : string -> option string }.

(** *** The request handlers

    A handler that returns a status in C returns the status and the
    message here. *)

(** The [g_warning] for a non-zero [gerr] goes to the log, not to the
    message. *)
Definition lookup_handle_error (msg : SoupMessage) (details : string) (gerr : Z)
    : Z * SoupMessage :=
  let t := HKP_ERROR_RESPONSE details in
  (* Yes, that's right. HKP returns 200 even when errors occur *)
  (SOUP_STATUS_OK, soup_message_set_response msg "text/html" t (strlen t)).

(** The [while (gpgme_op_keylist_next (...) == 0)] of [lookup_handle_index]
    over the keys the context hands out. *)
Fixpoint keylist_loop (search : string) (verbose fingerprints : bool)
    (keys : list gpgme_key_t) (found : bool) (response : string) : bool * string :=
  match keys with
  | [] => (found, response)
  | key :: rest =>
      let response :=
        if negb found then
          let t := escape_html search in
          if verbose then HKP_VINDEX_PREFIX t t else HKP_INDEX_PREFIX t t
        else response in
      keylist_loop search verbose fingerprints rest true
        (append_key_info response key verbose fingerprints)
  end.

Definition lookup_handle_index (ctx : gpgme_ctx_t) (msg : SoupMessage)
    (args : gmap string string) (verbose : bool) : Z * SoupMessage :=
  let mode := GPGME_KEYLIST_MODE_LOCAL in
  let mode := if verbose then Z.lor mode GPGME_KEYLIST_MODE_SIGS else mode in
  let fingerprints :=
    match args !! "fingerprint" with
    | Some t => g_ascii_strcasecmp t "on" =? 0
    | None => false
    end in
  let search := args !! "search" in
  if null_or_empty search then
    lookup_handle_error msg "pks request did not include a <b>search</b> property" 0
  else
    let search := default "" search in
    let gerr := gpgme_op_keylist_start ctx search in
    if negb (gerr =? 0) then lookup_handle_error msg "Error retrieving key(s)" gerr
    else
      let '(found, response) :=
        keylist_loop search verbose fingerprints (gpgme_op_keylist_next ctx mode search)
          false "" in
      if found then
        let resp := response +:+ HKP_INDEX_SUFFIX in
        (SOUP_STATUS_OK, soup_message_set_response msg "text/html" resp (strlen resp))
      else
        (* Not finding any keys is an error condition *)
        lookup_handle_error msg "No matching keys in database" 0.

Definition lookup_handle_get (ctx : gpgme_ctx_t) (msg : SoupMessage)
    (args : gmap string string) : Z * SoupMessage :=
  let search := args !! "search" in
  if null_or_empty search then
    lookup_handle_error msg "pks request did not include a <b>search</b> property" 0
  else
    let search := default "" search in
    let gerr := gpgme_data_new ctx in
    if negb (gerr =? 0) then lookup_handle_error msg "Internal error" gerr
    else
      let gerr := gpgme_op_export ctx search in
      if negb (gerr =? 0) then lookup_handle_error msg "Error retrieving key(s)" gerr
      else
        match gpgme_data_release_and_get_mem ctx search with
        | None => lookup_handle_error msg "No matching key in database" 0
        | Some key =>
            if (String.length key =? 0)%nat then
              lookup_handle_error msg "No matching key in database" 0
            else
              let t := escape_html search in
              let response := HKP_GET_PREFIX t t +:+ key +:+ HKP_GET_SUFFIX in
              (SOUP_STATUS_OK,
               soup_message_set_response msg "text/html" response (strlen response))
        end.

(** [args] is [None] for a [NULL] table. *)
Definition lookup_callback (ctx : gpgme_ctx_t) (msg : SoupMessage)
    (args : option (gmap string string)) : SoupMessage :=
  let msg := soup_message_headers_append msg "Connection" "close" in
  if negb (String.eqb (method msg) SOUP_METHOD_GET) then
    soup_message_set_status msg SOUP_STATUS_METHOD_NOT_ALLOWED
  else
    match args with
    | None =>
        let '(code, msg) := lookup_handle_error msg "pks request had no query string" 0 in
        soup_message_set_status msg SOUP_STATUS_METHOD_NOT_ALLOWED
    | Some a =>
        if (size a =? 0)%nat then
          let '(code, msg) := lookup_handle_error msg "pks request had no query string" 0 in
          soup_message_set_status msg SOUP_STATUS_METHOD_NOT_ALLOWED
        else
          let t := a !! "op" in
          let '(code, msg) :=
            if null_or_empty t then
              lookup_handle_error msg "pks request did not include an <b>op</b> property" 0
            else if g_ascii_strcasecmp (default "" t) "index" =? 0 then
              lookup_handle_index ctx msg a false
            else if g_ascii_strcasecmp (default "" t) "vindex" =? 0 then
              lookup_handle_index ctx msg a true
            else if g_ascii_strcasecmp (default "" t) "get" =? 0 then
              lookup_handle_get ctx msg a
            else
              lookup_handle_error msg "pks request had an invalid <b>op</b> property" 0 in
          soup_message_set_status msg code
    end.

Definition add_callback (msg : SoupMessage) : SoupMessage :=
  let msg := soup_message_set_response msg "text/html" HKP_ADD_RESPONSE
               (strlen HKP_ADD_RESPONSE) in
  let msg := soup_message_set_status msg SOUP_STATUS_METHOD_NOT_ALLOWED in
  soup_message_headers_append msg "Connection" "close".

Definition default_callback (msg : SoupMessage) : SoupMessage :=
  let msg := soup_message_set_response msg "text/html" HKP_NOTFOUND_RESPONSE
               (strlen HKP_NOTFOUND_RESPONSE) in
  let msg := soup_message_set_status msg SOUP_STATUS_NOT_FOUND in
  soup_message_headers_append msg "Connection" "close".

(** *** The handler table of [seahorse_hkp_server_start]

    [soup_server_add_handler] is libsoup's, not this program's: libsoup 2
    hands a request to the handler whose registered path is the longest one
    that is a leading part, byte for byte, of the request path, and to the
    [NULL] handler when there is none.  The two registered paths are not
    leading parts of each other, so the order of the tests is immaterial. *)

Definition under_handler (registered path : string) : bool :=
  String.prefix registered path.

Definition soup_server_handle (ctx : gpgme_ctx_t) (path : string) (msg : SoupMessage)
    (args : option (gmap string string)) : SoupMessage :=
  if under_handler "/pks/lookup" path then lookup_callback ctx msg args
  else if under_handler "/pks/add" path then add_callback msg
  else default_callback msg.

(** *** The two handles of the running server *)

Inductive effect :=
  | g_object_unref (soup : positive)
  | gpgme_release (ctx : positive).

Record server := {
  soup_server : option positive;
  gpgme_ctx : option positive }.

Definition seahorse_hkp_server_stop (s : server) : server * list effect :=
  let '(soup, e1) :=
    match soup_server s with
    | Some h => (None, [g_object_unref h])
    | None => (soup_server s, [])
    end in
  let '(ctx, e2) :=
    match gpgme_ctx s with
    | Some c => (None, [gpgme_release c])
    | None => (gpgme_ctx s, [])
    end in
  ({| soup_server := soup; gpgme_ctx := ctx |}, (e1 ++ e2)%list).

Definition seahorse_hkp_server_is_running (s : server) : bool :=
  match soup_server s with
  | Some _ => true
  | None => false
  end.

(** [soup_server_get_port] is libsoup's. *)
Definition seahorse_hkp_server_get_port (soup_server_get_port : positive -> Z)
    (s : server) : Z :=
  match soup_server s with
  | None => 0                          (* g_return_val_if_fail *)
  | Some h => soup_server_get_port h
  end.

(** *** Starting the server *)

Definition HKP_FIXED_PORT : Z := 0.
Definition SOUP_ADDRESS_ANY_PORT : Z := 0.

(** What GPGME, libsoup and the C library answer while the server starts:
    whether [gpgme_check_version] returns a version, the error codes of the
    three GPGME calls, the context [gpgme_new] stores when it succeeds, the
    server [soup_server_new] makes for a port ([None] for [NULL]), [errno]
    after it, and the text of an error number. *)
Record start_answers := {
  gpgme_check_version : bool;
  gpgme_engine_check_version : Z;
  gpgme_new : Z;
  gpgme_new_ctx : positive;
  gpgme_set_protocol : Z;
  soup_server_new : Z -> option positive;
  errno : Z;
  g_strerror : Z -> string }.

Record GError := {
  code : Z;
  message : option string }.

(** A line of the log: a failed [g_return_val_if_fail] or
    [g_return_val_if_reached], or a warning with its GPGME error. *)
Inductive log_message :=
  | return_if_fail (expr : string)
  | warning (format : string) (gerr : Z).

(** What [seahorse_hkp_server_start] leaves: its return value, the two
    handles, the error stored through [err], the log. *)
Record start_result := {
  started : bool;
  after_start : server;
  err : option GError;
  logged : list log_message }.

Definition seahorse_hkp_server_start (A : start_answers) (s : server) : start_result :=
  let port := if negb (HKP_FIXED_PORT =? 0) then HKP_FIXED_PORT else SOUP_ADDRESS_ANY_PORT in
  let port := if 0 <? HKP_FIXED_PORT then HKP_FIXED_PORT else port in
  let fail (s' : server) (l : log_message) :=
    {| started := false; after_start := s'; err := None; logged := [l] |} in
  (* Now start the HTTP server *)
  let http (s' : server) :=
    match soup_server s' with
    | Some _ => fail s' (return_if_fail "soup_server == NULL")
    | None =>
        match soup_server_new A port with
        | None =>
            {| started := false; after_start := s';
               err := Some {| code := errno A; message := Some (g_strerror A (errno A)) |};
               logged := [] |}
        | Some h =>
            {| started := true;
               after_start := {| soup_server := Some h; gpgme_ctx := gpgme_ctx s' |};
               err := None; logged := [] |}
        end
    end in
  (* Initialize GPGME context *)
  match gpgme_ctx s with
  | Some _ => http s
  | None =>
      if negb (gpgme_check_version A) then fail s (return_if_fail "reached")
      else if negb (gpgme_engine_check_version A =? 0) then
        fail s (return_if_fail "gerr == 0")
      else if negb (gpgme_new A =? 0) then
        fail s (warning "couldn't initialize gpgme: %s" (gpgme_new A))
      else
        let s' := {| soup_server := soup_server s; gpgme_ctx := Some (gpgme_new_ctx A) |} in
        if negb (gpgme_set_protocol A =? 0) then fail s' (return_if_fail "gerr == 0")
        else http s'
  end.

End Hkp.

(** ** daemon/seahorse-sharing.c *)

Module Sharing.

Definition HKP_SERVICE_TYPE : string := "_pgpkey-hkp._tcp.".
Definition AVAHI_ERR_DISCONNECTED : Z := -23.   (* avahi-common/error.h *)

(** What GLib and libsoup answer: the user's names, the UTF-8 helpers used
    by [string_up_first] ([g_utf8_find_next_char] as a byte offset, [None]
    for [NULL]), the share name format under the current translation, and
    the port of a running server. *)
Record glib := {
  g_get_real_name : option string;
  g_get_user_name : string;
  g_utf8_validate : string -> bool;
  g_utf8_find_next_char : string -> option nat;
  g_utf8_strup : string -> nat -> string;
  encryption_keys_fmt : string -> string;   (* _("%s's encryption keys") *)
  soup_server_get_port : positive -> Z }.

Inductive AvahiEntryGroupState :=
  | AVAHI_ENTRY_GROUP_UNCOMMITED
  | AVAHI_ENTRY_GROUP_REGISTERING
  | AVAHI_ENTRY_GROUP_ESTABLISHED
  | AVAHI_ENTRY_GROUP_COLLISION
  | AVAHI_ENTRY_GROUP_FAILURE.

Inductive AvahiClientState :=
  | AVAHI_CLIENT_S_REGISTERING
  | AVAHI_CLIENT_S_RUNNING
  | AVAHI_CLIENT_S_COLLISION
  | AVAHI_CLIENT_FAILURE
  | AVAHI_CLIENT_CONNECTING.

(** What Avahi answers to the calls made while one callback (or one call of
    [start_publishing]) runs; none of them is made twice in one run.

    [avahi_client_new] is handed [client_callback], and Avahi may run it on
    the client being made before [avahi_client_new] returns, that is before
    the assignment to the global [avahi_client]: the first operand of the
    [g_assert] of [client_callback] is there for this call.
    [avahi_client_new_calls] is the state reported by that call together
    with Avahi's answers to the calls made inside it, and [None] when
    [avahi_client_new] returns without running the callback.  The report is
    taken to come only with a client that [avahi_client_new] then returns. *)
#[warnings="-register-all"]
Inductive avahi := {
  avahi_entry_group_new_r : option positive;
  avahi_entry_group_add_service_r : Z;
  avahi_entry_group_commit_r : Z;
  avahi_client_errno : Z;
  avahi_glib_poll_new_r : option positive;
  avahi_client_new_r : option positive;
  avahi_client_new_calls : option (AvahiClientState * avahi) }.

(** The argument of a warning's [%s]: a string of the module ([None] for
    [NULL]), or Avahi's text for an error code. *)
Inductive warning_arg :=
  | no_arg
  | arg_string (s : option string)
  | arg_avahi_strerror (code : Z).

(** What the module does to the outside, in order. *)
Inductive effect :=
  | avahi_entry_group_free (group : positive)
  | avahi_client_free (client : positive)
  | avahi_entry_group_reset (group : positive)
  | avahi_entry_group_new (client : positive)
  | avahi_entry_group_add_service (group : option positive) (name : option string)
      (type : string) (port : Z)
  | avahi_entry_group_commit (group : option positive)
  | avahi_glib_poll_new
  | avahi_client_new (poll : option positive)
  | show_error (heading message : string)
  | g_warning (format : string) (arg : warning_arg)
  | sleep (seconds : Z)
  | hkp_server (e : Hkp.effect).

(** The file-scope variables of the module, those of the HKP server, and the
    effects so far. *)
Record world := {
  avahi_group : option positive;
  avahi_client : option positive;
  avahi_poll : option positive;
  share_name : option string;
  share_alternate : Z;
  hkp : Hkp.server;
  trace : list effect }.

(** A computation over the world; [None] is a failed [g_assert]. *)
Definition M (A : Type) : Type := world -> option (A * world).

Definition ret {A} (a : A) : M A := fun w => Some (a, w).

Definition bind {A B} (m : M A) (k : A -> M B) : M B :=
  fun w => match m w with
           | Some (a, w') => k a w'
           | None => None
           end.

Notation "'let*' x ':=' m 'in' k" := (bind m (fun x => k))
  (at level 10, x name, m at level 100, k at level 200).
Notation "m ;; k" := (bind m (fun _ => k))
  (at level 100, k at level 200, right associativity).

Definition get {A} (f : world -> A) : M A := fun w => Some (f w, w).

Definition g_assert (b : bool) : M unit := fun w => if b then Some (tt, w) else None.

Definition emit (e : effect) : M unit := fun w =>
  Some (tt, {| avahi_group := avahi_group w; avahi_client := avahi_client w;
               avahi_poll := avahi_poll w; share_name := share_name w;
               share_alternate := share_alternate w; hkp := hkp w;
               trace := (trace w ++ [e])%list |}).

Definition set_avahi_group (g : option positive) : M unit := fun w =>
  Some (tt, {| avahi_group := g; avahi_client := avahi_client w;
               avahi_poll := avahi_poll w; share_name := share_name w;
               share_alternate := share_alternate w; hkp := hkp w;
               trace := trace w |}).

Definition set_avahi_client (c : option positive) : M unit := fun w =>
  Some (tt, {| avahi_group := avahi_group w; avahi_client := c;
               avahi_poll := avahi_poll w; share_name := share_name w;
               share_alternate := share_alternate w; hkp := hkp w;
               trace := trace w |}).

Definition set_avahi_poll (p : option positive) : M unit := fun w =>
  Some (tt, {| avahi_group := avahi_group w; avahi_client := avahi_client w;
               avahi_poll := p; share_name := share_name w;
               share_alternate := share_alternate w; hkp := hkp w;
               trace := trace w |}).

Definition set_share_name (n : option string) : M unit := fun w =>
  Some (tt, {| avahi_group := avahi_group w; avahi_client := avahi_client w;
               avahi_poll := avahi_poll w; share_name := n;
               share_alternate := share_alternate w; hkp := hkp w;
               trace := trace w |}).

Definition set_share_alternate (n : Z) : M unit := fun w =>
  Some (tt, {| avahi_group := avahi_group w; avahi_client := avahi_client w;
               avahi_poll := avahi_poll w; share_name := share_name w;
               share_alternate := n; hkp := hkp w;
               trace := trace w |}).

Definition set_hkp (s : Hkp.server) : M unit := fun w =>
  Some (tt, {| avahi_group := avahi_group w; avahi_client := avahi_client w;
               avahi_poll := avahi_poll w; share_name := share_name w;
               share_alternate := share_alternate w; hkp := s;
               trace := trace w |}).

Definition when (b : bool) (m : M unit) : M unit := if b then m else ret tt.

Definition when_some {A} (o : option A) (m : A -> M unit) : M unit :=
  match o with
  | Some a => m a
  | None => ret tt
  end.

Fixpoint emit_all (l : list effect) : M unit :=
  match l with
  | [] => ret tt
  | e :: r => emit e ;; emit_all r
  end.

Section Publishing.

Context (G : glib).

Definition string_up_first (orig : string) : string :=
  if g_utf8_validate G orig then
    match g_utf8_find_next_char G orig with
    | Some t =>
        g_utf8_strup G orig t +:+ String.substring t (String.length orig - t) orig
    | None => orig                     (* Can't find first UTF8 char *)
    end
  else
    (* Just use ASCII functions when not UTF8 *)
    match orig with
    | EmptyString => EmptyString
    | String c r => String (g_ascii_toupper c) r
    end.

Definition stop_publishing (errmsg : bool) : M unit :=
  set_share_name None ;;
  let* g := get avahi_group in
  when_some g (fun g => emit (avahi_entry_group_free g)) ;;
  set_avahi_group None ;;
  let* c := get avahi_client in
  when_some c (fun c => emit (avahi_client_free c)) ;;
  set_avahi_client None ;;
  when errmsg
    (emit (show_error "Couldn't share keys"
             "Can't publish discovery information on the network.")).

Definition calc_share_name : M unit :=
  let user_name :=
    match g_get_real_name G with
    | None => string_up_first (g_get_user_name G)
    | Some n =>
        if String.eqb n "Unknown" then string_up_first (g_get_user_name G) else n
    end in
  set_share_name (Some (encryption_keys_fmt G user_name)) ;;
  let* alt := get share_alternate in
  when (negb (alt =? 0))
    (let* n := get share_name in
     set_share_name (Some (default "(null)" n +:+ " #" +:+ fmt_d alt))).

Definition add_service (A : avahi) : M unit :=
  let* g := get avahi_group in
  let* n := get share_name in
  let* s := get hkp in
  emit (avahi_entry_group_add_service g n HKP_SERVICE_TYPE
          (Hkp.seahorse_hkp_server_get_port (soup_server_get_port G) s)) ;;
  let r := avahi_entry_group_add_service_r A in
  let* r :=
    if 0 <=? r then emit (avahi_entry_group_commit g) ;; ret (avahi_entry_group_commit_r A)
    else ret r in
  when (r <? 0)
    (emit (g_warning "failed to register _pgpkey-hkp._tcp service: %s"
             (arg_avahi_strerror r)) ;;
     stop_publishing true).

Definition services_callback (group : positive) (state : AvahiEntryGroupState)
    (A : avahi) : M unit :=
  let* g := get avahi_group in
  g_assert (match g with None => true | Some g' => Pos.eqb group g' end) ;;
  match state with
  | AVAHI_ENTRY_GROUP_COLLISION =>
      (* Someone else has our registered name *)
      let* alt := get share_alternate in
      set_share_alternate (int_wrap (alt + 1)) ;;
      calc_share_name ;;
      let* n := get share_name in
      emit (g_warning "naming collision trying new name: %s" (arg_string n)) ;;
      add_service A
  | AVAHI_ENTRY_GROUP_FAILURE =>
      emit (g_warning "avahi entry group failure: %s"
              (arg_avahi_strerror (avahi_client_errno A))) ;;
      stop_publishing true
  | _ => ret tt
  end.

Definition dns_sd_get_poll (A : avahi) : M (option positive) :=
  let* p := get avahi_poll in
  match p with
  | Some _ => ret p
  | None =>
      emit avahi_glib_poll_new ;;
      set_avahi_poll (avahi_glib_poll_new_r A) ;;
      let* p := get avahi_poll in
      match p with
      | None =>
          emit (g_warning "couldn't initialize avahi glib poll integration" no_arg) ;;
          ret None
      | Some _ => ret p
      end
  end.

(** The body of [client_callback].  [restart] is its call of
    [start_publishing], which is defined below because the callback runs
    inside it. *)
Definition client_state_changed (restart : M bool) (client : positive)
    (state : AvahiClientState) (A : avahi) : M unit :=
  let* c := get avahi_client in
  g_assert (match c with None => true | Some c' => Pos.eqb client c' end) ;;
  match state with
  | AVAHI_CLIENT_S_RUNNING =>
      (* Create a new entry group if necessary *)
      let* g := get avahi_group in
      match g with
      | None =>
          emit (avahi_entry_group_new client) ;;
          set_avahi_group (avahi_entry_group_new_r A) ;;
          let* g := get avahi_group in
          match g with
          | None =>
              emit (g_warning "couldn't create avahi services group: %s"
                      (arg_avahi_strerror (avahi_client_errno A))) ;;
              stop_publishing true
          | Some _ => add_service A
          end
      | Some _ => add_service A
      end
  | AVAHI_CLIENT_S_COLLISION =>
      (* Drop our published services *)
      let* g := get avahi_group in
      when_some g (fun g => emit (avahi_entry_group_reset g))
  | AVAHI_CLIENT_FAILURE =>
      let errmsg := negb (avahi_client_errno A =? AVAHI_ERR_DISCONNECTED) in
      when errmsg
        (emit (g_warning "failure talking with avahi: %s"
                 (arg_avahi_strerror (avahi_client_errno A)))) ;;
      stop_publishing errmsg ;;
      (* Try to restart *)
      emit (sleep 1) ;;
      let* started := restart in
      ret tt
  | _ => ret tt
  end.

(** The callback that Avahi runs inside [avahi_client_new] sees the global
    [avahi_client] as it was before the call; the assignment follows it. *)
Fixpoint start_publishing (A : avahi) : M bool :=
  (* The share name is important *)
  set_share_alternate 0 ;;
  calc_share_name ;;
  let* poll := dns_sd_get_poll A in
  emit (avahi_client_new poll) ;;
  match avahi_client_new_r A, avahi_client_new_calls A with
  | Some client, Some (state, inside) =>
      client_state_changed (start_publishing inside) client state inside
  | _, _ => ret tt
  end ;;
  set_avahi_client (avahi_client_new_r A) ;;
  let* c := get avahi_client in
  ret (match c with Some _ => true | None => false end).

Definition client_callback (client : positive) (state : AvahiClientState)
    (A : avahi) : M unit :=
  client_state_changed (start_publishing A) client state A.

Definition stop_sharing : M unit :=
  stop_publishing false ;;
  let* s := get hkp in
  when (Hkp.seahorse_hkp_server_is_running s)
    (let '(s', es) := Hkp.seahorse_hkp_server_stop s in
     set_hkp s' ;;
     emit_all (map hkp_server es)).

(** [n] entry group collisions in a row, each with its own answers. *)
Fixpoint collisions (group : positive) (answers : list avahi) : M unit :=
  match answers with
  | [] => ret tt
  | A :: rest =>
      services_callback group AVAHI_ENTRY_GROUP_COLLISION A ;;
      collisions group rest
  end.

(** The one caller passes a format without conversions, so [desc] is the
    heading as it is shown. *)
Definition handle_error (err : option Hkp.GError) (desc : string) : M unit :=
  match err with
  | None => ret tt
  | Some e => emit (show_error desc (default "" (Hkp.message e)))
  end.

(** The log lines of the server start stay in its result. *)
Definition start_sharing (S : Hkp.start_answers) (A : avahi) : M unit :=
  let* s := get hkp in
  when (negb (Hkp.seahorse_hkp_server_is_running s))
    (let r := Hkp.seahorse_hkp_server_start S s in
     set_hkp (Hkp.after_start r) ;;
     if negb (Hkp.started r) then handle_error (Hkp.err r) "Couldn't share keys"
     else
       let* published := start_publishing A in
       when (negb published)
         (let* s := get hkp in
          (let '(s', es) := Hkp.seahorse_hkp_server_stop s in
           set_hkp s' ;;
           emit_all (map hkp_server es)) ;;
          stop_publishing true)).

Definition seahorse_sharing_init (S : Hkp.start_answers) (A : avahi) : M unit :=
  start_sharing S A.

Definition seahorse_sharing_cleanup : M unit := stop_sharing.

End Publishing.

End Sharing.

(** ** daemon/seahorse-daemon.c *)

Module Daemon.

(** GLib's log flags and levels, syslog's priorities. *)
Definition G_LOG_FLAG_RECURSION : Z := Z.shiftl 1 0.
Definition G_LOG_FLAG_FATAL : Z := Z.shiftl 1 1.
Definition G_LOG_LEVEL_ERROR : Z := Z.shiftl 1 2.
Definition G_LOG_LEVEL_CRITICAL : Z := Z.shiftl 1 3.
Definition G_LOG_LEVEL_WARNING : Z := Z.shiftl 1 4.
Definition G_LOG_LEVEL_MESSAGE : Z := Z.shiftl 1 5.
Definition G_LOG_LEVEL_INFO : Z := Z.shiftl 1 6.
Definition G_LOG_LEVEL_DEBUG : Z := Z.shiftl 1 7.
Definition G_LOG_LEVEL_MASK : Z := Z.lnot (Z.lor G_LOG_FLAG_RECURSION G_LOG_FLAG_FATAL).

Definition LOG_CRIT : Z := 2.
Definition LOG_ERR : Z := 3.
Definition LOG_WARNING : Z := 4.
Definition LOG_NOTICE : Z := 5.
Definition LOG_INFO : Z := 6.
Definition LOG_DEBUG : Z := 7.

Inductive effect :=
  | syslog (level : Z) (text : string)
  | g_log_default_handler (log_domain : option string) (log_level : Z) (message : string)
  | gtk_main_quit.

(** The [switch] of [log_handler]. *)
Definition syslog_level (log_level : Z) : Z :=
  let l := Z.land G_LOG_LEVEL_MASK log_level in
  (* Note that crit and err are the other way around in syslog *)
  if l =? G_LOG_LEVEL_ERROR then LOG_CRIT
  else if l =? G_LOG_LEVEL_CRITICAL then LOG_ERR
  else if l =? G_LOG_LEVEL_WARNING then LOG_WARNING
  else if l =? G_LOG_LEVEL_MESSAGE then LOG_NOTICE
  else if l =? G_LOG_LEVEL_INFO then LOG_INFO
  else if l =? G_LOG_LEVEL_DEBUG then LOG_DEBUG
  else LOG_ERR.

Definition log_handler (log_domain : option string) (log_level : Z) (message : string)
    : list effect :=
  let level := syslog_level log_level in
  [ (* Log to syslog first *)
    match log_domain with
    | Some d => syslog level (d +:+ ": " +:+ message)
    | None => syslog level message
    end;
    (* And then to default handler for aborting and stuff like that *)
    g_log_default_handler log_domain log_level message ].

(** The levels [prepare_logging] installs the handler for. *)
Definition prepare_logging_flags : Z :=
  Z.lor G_LOG_FLAG_FATAL
    (Z.lor G_LOG_LEVEL_ERROR
       (Z.lor G_LOG_LEVEL_CRITICAL
          (Z.lor G_LOG_LEVEL_WARNING (Z.lor G_LOG_LEVEL_MESSAGE G_LOG_LEVEL_INFO)))).

Record flags := {
  daemon_running : bool;
  daemon_quit : bool }.

Definition unix_signal (signal : Z) (f : flags) : flags * list effect :=
  ({| daemon_running := daemon_running f; daemon_quit := true |},
   if daemon_running f then [gtk_main_quit] else []).

Definition smclient_quit (f : flags) : flags * list effect :=
  ({| daemon_running := daemon_running f; daemon_quit := true |},
   if daemon_running f then [gtk_main_quit] else []).

End Daemon.

(** ** The lookup errors, as the specification lists them

    Section 4.2 of the specification, case by case: the details of the error
    page a lookup with query arguments [a] ends in, [None] when it ends in
    an index or a key. *)

Module Spec.
Import Hkp.

Definition op_is (a : gmap string string) (op : string) : bool :=
  match a !! "op" with
  | Some t => g_ascii_strcasecmp t op =? 0
  | None => false
  end.

Definition search_error (a : gmap string string) : option string :=
  if null_or_empty (a !! "search")
  then Some "pks request did not include a <b>search</b> property"
  else None.

Definition index_error (ctx : gpgme_ctx_t) (a : gmap string string) (verbose : bool)
    : option string :=
  let search := default "" (a !! "search") in
  let mode := if verbose then 5 else 1 in
  match search_error a with
  | Some e => Some e
  | None =>
      if negb (gpgme_op_keylist_start ctx search =? 0) then Some "Error retrieving key(s)"
      else match gpgme_op_keylist_next ctx mode search with
           | [] => Some "No matching keys in database"
           | _ :: _ => None
           end
  end.

Definition get_error (ctx : gpgme_ctx_t) (a : gmap string string) : option string :=
  let search := default "" (a !! "search") in
  match search_error a with
  | Some e => Some e
  | None =>
      if negb (gpgme_data_new ctx =? 0) then Some "Internal error"
      else if negb (gpgme_op_export ctx search =? 0) then Some "Error retrieving key(s)"
      else match gpgme_data_release_and_get_mem ctx search with
           | None | Some "" => Some "No matching key in database"
           | Some _ => None
           end
  end.

(** A page is an index page when it opens with the index title. *)
Definition is_index_page (body : string) : bool :=
  String.prefix "<title>Public Key Server -- Verbose Index ``" body.

Definition lookup_error (ctx : gpgme_ctx_t) (a : gmap string string) : option string :=
  if null_or_empty (a !! "op")
  then Some "pks request did not include an <b>op</b> property"
  else if op_is a "index" then index_error ctx a false
  else if op_is a "vindex" then index_error ctx a true
  else if op_is a "get" then get_error ctx a
  else Some "pks request had an invalid <b>op</b> property".

(** The base name of the share: what [calc_share_name] stores while
    [share_alternate] is 0. *)
Definition base_name (G : Sharing.glib) : string :=
  Sharing.encryption_keys_fmt G
    (match Sharing.g_get_real_name G with
     | None => Sharing.string_up_first G (Sharing.g_get_user_name G)
     | Some n =>
         if String.eqb n "Unknown"
         then Sharing.string_up_first G (Sharing.g_get_user_name G)
         else n
     end).

(** Avahi took the service record and the commit. *)
Definition registered (A : Sharing.avahi) : bool :=
  (0 <=? Sharing.avahi_entry_group_add_service_r A) &&
  (0 <=? Sharing.avahi_entry_group_commit_r A).

End Spec.

(** ** Concrete keys, contexts and worlds *)

Module Examples.
Import Hkp.

(** The record of the specification's index scenario: 2048 bit RSA,
    fingerprint AAAA1111BBBB2222, created at [t], one user id named Alice. *)
Definition alice_key (t : Z) (sigs : list gpgme_key_sig_t) : gpgme_key_t :=
  {| revoked := false;
     subkeys := [{| pubkey_algo := GPGME_PK_RSA; sk_length := 2048;
                    fpr := "AAAA1111BBBB2222"; timestamp := t |}];
     uids := [{| uid_name := Some "Alice"; uid_email := None; signatures := sigs |}] |}.

(** 2020-01-15 00:00:00 UTC. *)
Definition jan_15_2020 : Z := 1579046400.

(** A context that answers every listing with [keys] and every export with
    [exported]. *)
Definition ctx_of (keys : list gpgme_key_t) (exported : option string) : gpgme_ctx_t :=
  {| gpgme_op_keylist_start := fun _ => 0;
     gpgme_op_keylist_next := fun _ _ => keys;
     gpgme_data_new := 0;
     gpgme_op_export := fun _ => 0;
     gpgme_data_release_and_get_mem := fun _ => exported |}.

Definition query (op search : string) : gmap string string :=
  <["op" := op]> (<["search" := search]> ∅).

(** A revoked key with two user ids. *)
Definition revoked_key : gpgme_key_t :=
  {| revoked := true;
     subkeys := [{| pubkey_algo := GPGME_PK_DSA; sk_length := 1024;
                    fpr := "AAAA1111BBBB2222"; timestamp := jan_15_2020 |}];
     uids := [{| uid_name := Some "Alice"; uid_email := None; signatures := [] |};
              {| uid_name := Some "Bob"; uid_email := None; signatures := [] |}] |}.

Definition armored : string :=
  "-----BEGIN PGP PUBLIC KEY BLOCK-----" +:+ CRLF +:+ "mQENBF4=" +:+ CRLF +:+
  "-----END PGP PUBLIC KEY BLOCK-----".

(** GLib in the C locale for a user without a real name, login "alice". *)
Definition glib_alice : Sharing.glib :=
  {| Sharing.g_get_real_name := Some "Unknown";
     Sharing.g_get_user_name := "alice";
     Sharing.g_utf8_validate := fun _ => true;
     Sharing.g_utf8_find_next_char := fun _ => Some 1%nat;
     Sharing.g_utf8_strup := fun s n =>
       match String.substring 0 n s with
       | String c r => String (g_ascii_toupper c) r
       | EmptyString => EmptyString
       end;
     Sharing.encryption_keys_fmt := fun u => u +:+ "'s encryption keys";
     Sharing.soup_server_get_port := fun _ => 40123 |}.

(** Avahi accepting every call, and not running the callback inside
    [avahi_client_new]. *)
Definition avahi_ok : Sharing.avahi :=
  {| Sharing.avahi_entry_group_new_r := Some 7%positive;
     Sharing.avahi_entry_group_add_service_r := 0;
     Sharing.avahi_entry_group_commit_r := 0;
     Sharing.avahi_client_errno := 0;
     Sharing.avahi_glib_poll_new_r := Some 5%positive;
     Sharing.avahi_client_new_r := Some 9%positive;
     Sharing.avahi_client_new_calls := None |}.

(** Avahi refusing the service record. *)
Definition avahi_refusing : Sharing.avahi :=
  {| Sharing.avahi_entry_group_new_r := Some 7%positive;
     Sharing.avahi_entry_group_add_service_r := -8;
     Sharing.avahi_entry_group_commit_r := 0;
     Sharing.avahi_client_errno := 0;
     Sharing.avahi_glib_poll_new_r := Some 5%positive;
     Sharing.avahi_client_new_r := Some 9%positive;
     Sharing.avahi_client_new_calls := None |}.

(** Avahi accepting every call, and reporting the new client as running
    while [avahi_client_new] is still in progress. *)
Definition avahi_running_at_once : Sharing.avahi :=
  {| Sharing.avahi_entry_group_new_r := None;
     Sharing.avahi_entry_group_add_service_r := 0;
     Sharing.avahi_entry_group_commit_r := 0;
     Sharing.avahi_client_errno := 0;
     Sharing.avahi_glib_poll_new_r := Some 5%positive;
     Sharing.avahi_client_new_r := Some 9%positive;
     Sharing.avahi_client_new_calls :=
       Some (Sharing.AVAHI_CLIENT_S_RUNNING, avahi_ok) |}.

(** The world once the service is registered: server 1, poll 2, client 3,
    group 4. *)
Definition published : Sharing.world :=
  {| Sharing.avahi_group := Some 4%positive;
     Sharing.avahi_client := Some 3%positive;
     Sharing.avahi_poll := Some 2%positive;
     Sharing.share_name := Some "Alice's encryption keys";
     Sharing.share_alternate := 0;
     Sharing.hkp := {| soup_server := Some 1%positive; gpgme_ctx := Some 1%positive |};
     Sharing.trace := [] |}.

End Examples.

(** ** Observations on strings, and more sample data *)

Module Obs.

(** Carriage return and line feed, byte by byte. *)
Abbreviation crlf := (String "013"%char (String "010"%char EmptyString)) (only parsing).

(** Does the byte [c] occur in [s]? *)
Fixpoint occurs (c : ascii) (s : string) : bool :=
  match s with
  | EmptyString => false
  | String x r => Ascii.eqb x c || occurs c r
  end.

(** [s] without its blanks. *)
Fixpoint without_blanks (s : string) : string :=
  match s with
  | EmptyString => EmptyString
  | String x r => if Ascii.eqb x " " then without_blanks r else String x (without_blanks r)
  end.

(** [s] with every ASCII capital lowered. *)
Fixpoint lowered (s : string) : string :=
  match s with
  | EmptyString => EmptyString
  | String x r => String (g_ascii_tolower x) (lowered r)
  end.

(** The four bytes [escape_html] replaces. *)
Definition special (c : ascii) : bool :=
  Ascii.eqb c "<" || Ascii.eqb c ">" || Ascii.eqb c "&" || Ascii.eqb c "034".

Fixpoint plain (s : string) : bool :=
  match s with
  | EmptyString => true
  | String x r => negb (special x) && plain r
  end.

(** A key the renderer writes nothing for: no subkey or no user id. *)
Definition unprintable (key : Hkp.gpgme_key_t) : bool :=
  match Hkp.subkeys key, Hkp.uids key with
  | [], _ => true
  | _, [] => true
  | _, _ => false
  end.

(** The dialog of [stop_publishing (TRUE)]. *)
Definition dialog : Sharing.effect :=
  Sharing.show_error "Couldn't share keys"
    "Can't publish discovery information on the network.".

End Obs.

Module Samples.

(** GPGME and libsoup accepting every call of the server start. *)
Definition start_ok : Hkp.start_answers :=
  {| Hkp.gpgme_check_version := true;
     Hkp.gpgme_engine_check_version := 0;
     Hkp.gpgme_new := 0;
     Hkp.gpgme_new_ctx := 11%positive;
     Hkp.gpgme_set_protocol := 0;
     Hkp.soup_server_new := fun _ => Some 12%positive;
     Hkp.errno := 0;
     Hkp.g_strerror := fun _ => "Success" |}.

(** The socket cannot be bound. *)
Definition start_no_socket : Hkp.start_answers :=
  {| Hkp.gpgme_check_version := true;
     Hkp.gpgme_engine_check_version := 0;
     Hkp.gpgme_new := 0;
     Hkp.gpgme_new_ctx := 11%positive;
     Hkp.gpgme_set_protocol := 0;
     Hkp.soup_server_new := fun _ => None;
     Hkp.errno := 98;
     Hkp.g_strerror := fun _ => "Address already in use" |}.

Definition stopped_server : Hkp.server :=
  {| Hkp.soup_server := None; Hkp.gpgme_ctx := None |}.

(** Nothing started yet. *)
Definition idle : Sharing.world :=
  {| Sharing.avahi_group := None;
     Sharing.avahi_client := None;
     Sharing.avahi_poll := None;
     Sharing.share_name := None;
     Sharing.share_alternate := 0;
     Sharing.hkp := stopped_server;
     Sharing.trace := [] |}.

(** A key with two user ids, the first with an email, and signatures. *)
Definition two_uids : Hkp.gpgme_key_t :=
  {| Hkp.revoked := false;
     Hkp.subkeys := [{| Hkp.pubkey_algo := Hkp.GPGME_PK_ELG; Hkp.sk_length := 4096;
                        Hkp.fpr := "0123456789ABCDEF0123"; Hkp.timestamp := 0 |}];
     Hkp.uids :=
       [{| Hkp.uid_name := Some "Carol"; Hkp.uid_email := Some "carol@example.org";
           Hkp.signatures :=
             [{| Hkp.sig_keyid := "1122334455667788"; Hkp.sig_name := Some "Dave";
                 Hkp.sig_email := None |}] |};
        {| Hkp.uid_name := Some "Carol (work)"; Hkp.uid_email := None;
           Hkp.signatures := [] |}] |}.

(** A key without user ids. *)
Definition no_uids : Hkp.gpgme_key_t :=
  {| Hkp.revoked := false;
     Hkp.subkeys := [{| Hkp.pubkey_algo := Hkp.GPGME_PK_RSA; Hkp.sk_length := 2048;
                        Hkp.fpr := "AAAA1111BBBB2222"; Hkp.timestamp := 0 |}];
     Hkp.uids := [] |}.

End Samples.

(** ** Facts about C strings *)

Module CStrFacts.

Lemma no_nul_app a b : no_nul (a +:+ b) = no_nul a && no_nul b.
Proof.
  induction a as [|c a IH]; simpl; [reflexivity|].
  rewrite IH. apply andb_assoc.
Qed.

Lemma cstring_app a b : cstring a -> cstring b -> cstring (a +:+ b).
Proof. unfold cstring. intros Ha Hb. rewrite no_nul_app, Ha, Hb. reflexivity. Qed.

Lemma strlen_prefix_cstring t : cstring t -> strlen_prefix t = t.
Proof.
  unfold cstring. induction t as [|c t IH]; simpl; [reflexivity|].
  destruct (Ascii.eqb c NUL); simpl; [discriminate|].
  intros H. rewrite IH by assumption. reflexivity.
Qed.

Lemma substring_strlen t : String.substring 0 (strlen t) t = strlen_prefix t.
Proof.
  unfold strlen. induction t as [|c t IH]; simpl; [reflexivity|].
  destruct (Ascii.eqb c NUL); simpl; [reflexivity|].
  rewrite IH. reflexivity.
Qed.

Lemma substring_strlen_cstring t : cstring t -> String.substring 0 (strlen t) t = t.
Proof. intros H. rewrite substring_strlen. apply strlen_prefix_cstring, H. Qed.

End CStrFacts.

(** ** Facts about the HKP server *)

Module HkpFacts.
Import Hkp CStrFacts Obs.

Lemma append_assoc (a b c : string) : (a +:+ b) +:+ c = a +:+ b +:+ c.
Proof.
  induction a as [|x a IH]; [reflexivity|].
  change (String x ((a +:+ b) +:+ c) = String x (a +:+ b +:+ c)). f_equal. exact IH.
Qed.

Lemma append_nil_r (a : string) : a +:+ "" = a.
Proof.
  induction a as [|x a IH]; [reflexivity|].
  change (String x (a +:+ "") = String x a). f_equal. exact IH.
Qed.

Lemma no_nul_escape_html s : no_nul (escape_html s) = no_nul s.
Proof.
  induction s as [|c s IH]; simpl; [reflexivity|].
  rewrite no_nul_app, IH.
  destruct (Ascii.eqb c "<") eqn:E1; [apply Ascii.eqb_eq in E1; subst; reflexivity|].
  destruct (Ascii.eqb c ">") eqn:E2; [apply Ascii.eqb_eq in E2; subst; reflexivity|].
  destruct (Ascii.eqb c "&") eqn:E3; [apply Ascii.eqb_eq in E3; subst; reflexivity|].
  destruct (Ascii.eqb c "034") eqn:E4; [apply Ascii.eqb_eq in E4; subst; reflexivity|].
  simpl. rewrite andb_true_r. reflexivity.
Qed.

Lemma cstring_escape_html s : cstring s -> cstring (escape_html s).
Proof. unfold cstring. rewrite no_nul_escape_html. trivial. Qed.

Ltac cstring_tac :=
  repeat first [ reflexivity | assumption | apply cstring_escape_html | apply cstring_app ].

Lemma cstring_error_response d : cstring d -> cstring (HKP_ERROR_RESPONSE d).
Proof.
  intros H. unfold HKP_ERROR_RESPONSE.
  repeat (apply cstring_app; [reflexivity|]). exact H.
Qed.

Lemma lookup_handle_error_status msg d g : fst (lookup_handle_error msg d g) = SOUP_STATUS_OK.
Proof. reflexivity. Qed.

Lemma lookup_handle_error_body msg d g :
  cstring d -> response_body (snd (lookup_handle_error msg d g)) = HKP_ERROR_RESPONSE d.
Proof.
  intros H. unfold lookup_handle_error. cbn [snd soup_message_set_response response_body].
  apply substring_strlen_cstring, cstring_error_response, H.
Qed.

Lemma lookup_handle_error_headers msg d g :
  response_headers (snd (lookup_handle_error msg d g)) = response_headers msg.
Proof. reflexivity. Qed.

Lemma lookup_handle_index_status ctx msg a verbose :
  fst (lookup_handle_index ctx msg a verbose) = SOUP_STATUS_OK.
Proof.
  unfold lookup_handle_index.
  destruct (null_or_empty (a !! "search")); [reflexivity|].
  destruct (negb _); [reflexivity|].
  destruct (keylist_loop _ _ _ _ _ _) as [[] ?]; reflexivity.
Qed.

Lemma lookup_handle_index_headers ctx msg a verbose :
  response_headers (snd (lookup_handle_index ctx msg a verbose)) = response_headers msg.
Proof.
  unfold lookup_handle_index.
  destruct (null_or_empty (a !! "search")); [reflexivity|].
  destruct (negb _); [reflexivity|].
  destruct (keylist_loop _ _ _ _ _ _) as [[] ?]; reflexivity.
Qed.

Lemma lookup_handle_get_status ctx msg a :
  fst (lookup_handle_get ctx msg a) = SOUP_STATUS_OK.
Proof.
  unfold lookup_handle_get.
  destruct (null_or_empty (a !! "search")); [reflexivity|].
  destruct (negb _); [reflexivity|].
  destruct (negb _); [reflexivity|].
  destruct (gpgme_data_release_and_get_mem _ _); [|reflexivity].
  destruct (_ =? _)%nat; reflexivity.
Qed.

Lemma lookup_handle_get_headers ctx msg a :
  response_headers (snd (lookup_handle_get ctx msg a)) = response_headers msg.
Proof.
  unfold lookup_handle_get.
  destruct (null_or_empty (a !! "search")); [reflexivity|].
  destruct (negb _); [reflexivity|].
  destruct (negb _); [reflexivity|].
  destruct (gpgme_data_release_and_get_mem _ _); [|reflexivity].
  destruct (_ =? _)%nat; reflexivity.
Qed.

(** An index lookup that the specification counts as an error ends in
    [lookup_handle_error] with the details the specification names. *)
Lemma lookup_handle_index_error ctx msg a verbose d :
  Spec.index_error ctx a verbose = Some d ->
  lookup_handle_index ctx msg a verbose = lookup_handle_error msg d 0 /\ cstring d.
Proof.
  unfold Spec.index_error, Spec.search_error, lookup_handle_index.
  destruct (null_or_empty (a !! "search")).
  { intros [= <-]. split; reflexivity. }
  destruct (negb _).
  { intros [= <-]. split; reflexivity. }
  replace (if verbose then Z.lor GPGME_KEYLIST_MODE_LOCAL GPGME_KEYLIST_MODE_SIGS
           else GPGME_KEYLIST_MODE_LOCAL) with (if verbose then 5 else 1)
    by (destruct verbose; reflexivity).
  destruct (gpgme_op_keylist_next _ _ _) as [|k ks]; [|discriminate].
  intros [= <-]. split; reflexivity.
Qed.

Lemma lookup_handle_get_error ctx msg a d :
  Spec.get_error ctx a = Some d ->
  lookup_handle_get ctx msg a = lookup_handle_error msg d 0 /\ cstring d.
Proof.
  unfold Spec.get_error, Spec.search_error, lookup_handle_get.
  destruct (null_or_empty (a !! "search")).
  { intros [= <-]. split; reflexivity. }
  destruct (negb _).
  { intros [= <-]. split; reflexivity. }
  destruct (negb _).
  { intros [= <-]. split; reflexivity. }
  destruct (gpgme_data_release_and_get_mem _ _) as [[|c key]|].
  - intros [= <-]. split; reflexivity.
  - discriminate.
  - intros [= <-]. split; reflexivity.
Qed.

(** *** Dispatch on [op] *)

Lemma g_ascii_strcasecmp_head t c r :
  Z.of_nat (nat_of_ascii c) <> 0 ->
  g_ascii_strcasecmp t (String c r) = 0 ->
  exists c' t', t = String c' t' /\
    Z.of_nat (nat_of_ascii (g_ascii_tolower c')) = Z.of_nat (nat_of_ascii (g_ascii_tolower c)).
Proof.
  intros Hc. destruct t as [|c' t']; simpl.
  - intros H. lia.
  - destruct (Z.eqb_spec (Z.of_nat (nat_of_ascii (g_ascii_tolower c')))
                (Z.of_nat (nat_of_ascii (g_ascii_tolower c)))) as [E|E].
    + intros _. exists c', t'. split; [reflexivity|exact E].
    + intros H. lia.
Qed.

Lemma op_is_not_empty a op c r :
  op = String c r -> Z.of_nat (nat_of_ascii c) <> 0 ->
  Spec.op_is a op = true -> null_or_empty (a !! "op") = false.
Proof.
  intros -> Hc. unfold Spec.op_is. destruct (a !! "op") as [t|]; [|discriminate].
  intros H. apply Z.eqb_eq in H.
  destruct (g_ascii_strcasecmp_head _ _ _ Hc H) as (c' & t' & -> & _). reflexivity.
Qed.

Lemma op_is_exclusive a c1 r1 c2 r2 :
  Z.of_nat (nat_of_ascii c1) <> 0 ->
  Z.of_nat (nat_of_ascii c2) <> 0 ->
  Z.of_nat (nat_of_ascii (g_ascii_tolower c1)) <>
  Z.of_nat (nat_of_ascii (g_ascii_tolower c2)) ->
  Spec.op_is a (String c1 r1) = true -> Spec.op_is a (String c2 r2) = false.
Proof.
  intros H1 H2 Hne. unfold Spec.op_is. destruct (a !! "op") as [t|]; [|discriminate].
  intros H. apply Z.eqb_eq in H.
  destruct (g_ascii_strcasecmp_head _ _ _ H1 H) as (c' & t' & -> & E1).
  apply Z.eqb_neq. intros H'.
  destruct (g_ascii_strcasecmp_head _ _ _ H2 H') as (c'' & t'' & [= <- <-] & E2).
  congruence.
Qed.

(** [lookup_callback] for a GET with a non-empty table, as a dispatch on
    the tests of [op]. *)
Lemma lookup_callback_dispatch ctx msg a :
  method msg = SOUP_METHOD_GET -> size a <> 0%nat ->
  let msg' := soup_message_headers_append msg "Connection" "close" in
  let res :=
    if null_or_empty (a !! "op") then
      lookup_handle_error msg' "pks request did not include an <b>op</b> property" 0
    else if Spec.op_is a "index" then lookup_handle_index ctx msg' a false
    else if Spec.op_is a "vindex" then lookup_handle_index ctx msg' a true
    else if Spec.op_is a "get" then lookup_handle_get ctx msg' a
    else lookup_handle_error msg' "pks request had an invalid <b>op</b> property" 0 in
  lookup_callback ctx msg (Some a) = soup_message_set_status (snd res) (fst res).
Proof.
  intros Hm Hs. unfold lookup_callback.
  cbn [method soup_message_headers_append]. rewrite Hm. cbn [String.eqb negb].
  replace (String.eqb SOUP_METHOD_GET SOUP_METHOD_GET) with true by reflexivity.
  cbn [negb]. destruct (Nat.eqb_spec (size a) 0) as [E|_]; [contradiction|].
  unfold Spec.op_is. cbv zeta.
  destruct (a !! "op") as [[|c t]|].
  - reflexivity.
  - change (default "" (Some (String c t))) with (String c t). cbn [null_or_empty].
    match goal with |- (let '(_, _) := ?x in _) = _ => destruct x as [code m'] end.
    reflexivity.
  - reflexivity.
Qed.

(** The error page with its text written out. *)
Lemma error_response_text d :
  HKP_ERROR_RESPONSE d =
    "<title>Public Key Server -- Error</title><p>" +:+ crlf +:+
    "<h1>Public Key Server -- Error</h1><p>" +:+ crlf +:+ d.
Proof. reflexivity. Qed.

(** A GET with query arguments: status 200, and the error page with the
    details for each error the specification lists. *)
Lemma lookup_callback_with_args ctx msg a :
  method msg = SOUP_METHOD_GET -> size a <> 0%nat ->
  status_code (lookup_callback ctx msg (Some a)) = 200 /\
  forall d, Spec.lookup_error ctx a = Some d ->
            response_body (lookup_callback ctx msg (Some a)) = HKP_ERROR_RESPONSE d.
Proof.
  intros Hm Hs. rewrite (lookup_callback_dispatch ctx msg a Hm Hs).
  cbv zeta. set (msg' := soup_message_headers_append msg "Connection" "close").
  unfold Spec.lookup_error.
  destruct (null_or_empty (a !! "op")).
  { split; [reflexivity|]. intros d [= <-]. reflexivity. }
  destruct (Spec.op_is a "index").
  { split; [apply lookup_handle_index_status|]. intros d Hd.
    destruct (lookup_handle_index_error ctx msg' a false d Hd) as [-> Hc].
    apply (lookup_handle_error_body msg' d 0 Hc). }
  destruct (Spec.op_is a "vindex").
  { split; [apply lookup_handle_index_status|]. intros d Hd.
    destruct (lookup_handle_index_error ctx msg' a true d Hd) as [-> Hc].
    apply (lookup_handle_error_body msg' d 0 Hc). }
  destruct (Spec.op_is a "get").
  { split; [apply lookup_handle_get_status|]. intros d Hd.
    destruct (lookup_handle_get_error ctx msg' a d Hd) as [-> Hc].
    apply (lookup_handle_error_body msg' d 0 Hc). }
  split; [reflexivity|]. intros d [= <-]. reflexivity.
Qed.

(** *** The claims about the lookup server *)

(** C10: an identity whose name is absent or empty is formatted as the empty
    string, also when its email is present and not empty: the email is then
    rendered neither as text nor as a link. *)
Theorem format_key_uid_without_name (name email : option string) (keyid e : string) :
  name = None \/ name = Some "" ->
  email = Some e -> e <> "" ->
  format_key_uid name keyid email = "".
Proof.
  intros [-> | ->] -> He; unfold format_key_uid; reflexivity.
Qed.

Lemma format_key_uid_without_name_witness :
  format_key_uid (Some "") "AAAA1111BBBB2222" (Some "alice@example.org") = "".
Proof.
  apply (format_key_uid_without_name (Some "") (Some "alice@example.org")
           "AAAA1111BBBB2222" "alice@example.org").
  - right. reflexivity.
  - reflexivity.
  - discriminate.
Defined.

(** C8: whichever handler answers a request (the lookup handler, also when
    it rejects the method or finds no query string, the add handler, the
    default handler), the response carries the header [Connection: close]. *)
Theorem connection_close_on_every_route ctx (path : string) (msg : SoupMessage)
    (args : option (gmap string string)) :
  In ("Connection", "close") (response_headers (soup_server_handle ctx path msg args)) /\
  In ("Connection", "close") (response_headers (lookup_callback ctx msg args)) /\
  In ("Connection", "close") (response_headers (add_callback msg)) /\
  In ("Connection", "close") (response_headers (default_callback msg)).
Proof.
  assert (Hl : In ("Connection", "close") (response_headers (lookup_callback ctx msg args))).
  { unfold lookup_callback.
    set (msg' := soup_message_headers_append msg "Connection" "close").
    assert (H' : In ("Connection", "close") (response_headers msg')).
    { unfold msg'. cbn [soup_message_headers_append response_headers].
      apply in_or_app. right. left. reflexivity. }
    destruct (negb _); [exact H'|].
    destruct args as [a|]; [|exact H'].
    destruct (size a =? 0)%nat; [exact H'|].
    destruct (null_or_empty _); [exact H'|].
    destruct (_ =? 0).
    { destruct (lookup_handle_index ctx msg' a false) as [code m] eqn:E.
      cbn [soup_message_set_status response_headers].
      change m with (snd (code, m)). rewrite <- E, lookup_handle_index_headers. exact H'. }
    destruct (_ =? 0).
    { destruct (lookup_handle_index ctx msg' a true) as [code m] eqn:E.
      cbn [soup_message_set_status response_headers].
      change m with (snd (code, m)). rewrite <- E, lookup_handle_index_headers. exact H'. }
    destruct (_ =? 0).
    { destruct (lookup_handle_get ctx msg' a) as [code m] eqn:E.
      cbn [soup_message_set_status response_headers].
      change m with (snd (code, m)). rewrite <- E, lookup_handle_get_headers. exact H'. }
    exact H'. }
  assert (Ha : In ("Connection", "close") (response_headers (add_callback msg))).
  { unfold add_callback. cbn [soup_message_headers_append response_headers].
    apply in_or_app. right. left. reflexivity. }
  assert (Hd : In ("Connection", "close") (response_headers (default_callback msg))).
  { unfold default_callback. cbn [soup_message_headers_append response_headers].
    apply in_or_app. right. left. reflexivity. }
  repeat split; try assumption.
  unfold soup_server_handle. do 2 (destruct (under_handler _ _); [assumption|]). assumption.
Qed.

(** C2: a GET on the lookup handler without any query argument is answered
    with status 405 and the error page, byte for byte, that says the request
    had no query string; with query arguments the status is 200 whatever
    happens, and every lookup error the specification lists (no or empty
    [op], invalid [op], no [search], a failing key listing or export, no
    match) is answered with the same page carrying the text of that error,
    as for a missing [op]. *)
Theorem lookup_callback_status ctx (msg : SoupMessage) (args : option (gmap string string)) :
  method msg = SOUP_METHOD_GET ->
  let r := lookup_callback ctx msg args in
  let error_page d :=
    "<title>Public Key Server -- Error</title><p>" +:+ crlf +:+
    "<h1>Public Key Server -- Error</h1><p>" +:+ crlf +:+ d in
  (match args with None => True | Some a => size a = 0%nat end ->
   status_code r = 405 /\
   response_body r = error_page "pks request had no query string") /\
  (forall a, args = Some a -> size a <> 0%nat ->
   status_code r = 200 /\
   (forall d, Spec.lookup_error ctx a = Some d -> response_body r = error_page d) /\
   (null_or_empty (a !! "op") = true ->
    response_body r = error_page "pks request did not include an <b>op</b> property")).
Proof.
  intros Hm r error_page. split.
  - intros Hargs. subst r. unfold lookup_callback.
    cbn [method soup_message_headers_append]. rewrite Hm.
    replace (String.eqb SOUP_METHOD_GET SOUP_METHOD_GET) with true by reflexivity.
    cbn [negb].
    destruct args as [a|]; [rewrite Hargs|]; split; reflexivity.
  - intros a -> Hs. subst r error_page.
    destruct (lookup_callback_with_args ctx msg a Hm Hs) as [Hst Hb].
    split; [exact Hst|]. split.
    + intros d Hd. rewrite (Hb d Hd). apply error_response_text.
    + intros Hop. rewrite (Hb "pks request did not include an <b>op</b> property").
      * apply error_response_text.
      * unfold Spec.lookup_error. rewrite Hop. reflexivity.
Qed.

Lemma lookup_callback_status_witness :
  let r := lookup_callback (Examples.ctx_of [] None) (request "GET")
             (Some (Examples.query "index" "nobody")) in
  status_code r = 200 /\
  response_body r =
    "<title>Public Key Server -- Error</title><p>" +:+ crlf +:+
    "<h1>Public Key Server -- Error</h1><p>" +:+ crlf +:+
    "No matching keys in database".
Proof.
  destruct (lookup_callback_status (Examples.ctx_of [] None) (request "GET")
              (Some (Examples.query "index" "nobody")) eq_refl) as [_ H].
  destruct (H _ eq_refl ltac:(vm_compute; discriminate)) as (Hs & Hb & _).
  split; [exact Hs|]. apply Hb. reflexivity.
Defined.

Lemma size_lookup_ne_0 (a : gmap string string) k v : a !! k = Some v -> size a <> 0%nat.
Proof.
  intros H Hs. apply map_size_empty_inv in Hs. subst a.
  rewrite lookup_empty in H. discriminate.
Qed.

(** C6: a get lookup whose export succeeds with armored text (not empty, no
    NUL byte) is answered with status 200 and a body that is, byte for byte,
    the title and the heading [Public Key Server -- Get] with the escaped
    search term between the quotes, the opening [<pre>], then the exported
    text as it is, then the closing [</pre>], each on a line of its own. *)
Theorem get_body_is_exported_key ctx (msg : SoupMessage) (a : gmap string string)
    (search key : string) :
  method msg = SOUP_METHOD_GET ->
  Spec.op_is a "get" = true ->
  a !! "search" = Some search -> search <> "" -> cstring search ->
  gpgme_data_new ctx = 0 ->
  gpgme_op_export ctx search = 0 ->
  gpgme_data_release_and_get_mem ctx search = Some key -> key <> "" -> cstring key ->
  let r := lookup_callback ctx msg (Some a) in
  status_code r = 200 /\
  response_body r =
    "<title>Public Key Server -- Get ``" +:+ escape_html search +:+ "''</title><p>" +:+ crlf +:+
    "<h1>Public Key Server -- Get ``" +:+ escape_html search +:+ "''</h1><p>" +:+ crlf +:+
    "<pre>" +:+ crlf +:+
    key +:+ crlf +:+
    "</pre>".
Proof.
  intros Hm Hop Hs Hne Hcs Hnew Hexp Hmem Hkne Hck r. subst r.
  rewrite (lookup_callback_dispatch ctx msg a Hm (size_lookup_ne_0 a _ _ Hs)). cbv zeta.
  rewrite (op_is_not_empty a "get" _ _ eq_refl ltac:(discriminate) Hop).
  rewrite (op_is_exclusive a "g" "et" "i" "ndex"
             ltac:(discriminate) ltac:(discriminate) ltac:(discriminate) Hop).
  rewrite (op_is_exclusive a "g" "et" "v" "index"
             ltac:(discriminate) ltac:(discriminate) ltac:(discriminate) Hop).
  rewrite Hop. split; [apply lookup_handle_get_status|].
  unfold lookup_handle_get. rewrite Hs.
  destruct search as [|c search]; [contradiction|].
  change (default "" (Some (String c search))) with (String c search).
  cbn [null_or_empty]. rewrite Hnew, Hexp, Hmem. cbn [Z.eqb negb].
  destruct key as [|k key]; [contradiction|].
  cbn [String.length Nat.eqb snd soup_message_set_status soup_message_set_response
       response_body].
  rewrite substring_strlen_cstring by (unfold HKP_GET_PREFIX; cstring_tac).
  unfold HKP_GET_PREFIX, HKP_GET_SUFFIX. rewrite !append_assoc. reflexivity.
Qed.

Lemma get_body_is_exported_key_witness :
  response_body
    (lookup_callback
       (Examples.ctx_of [] (Some ("-----BEGIN PGP PUBLIC KEY BLOCK-----" +:+ crlf +:+
                                  "mQENBF4=" +:+ crlf +:+
                                  "-----END PGP PUBLIC KEY BLOCK-----")))
       (request "GET") (Some (Examples.query "GET" "<alice>"))) =
  "<title>Public Key Server -- Get ``&lt;alice&gt;''</title><p>" +:+ crlf +:+
  "<h1>Public Key Server -- Get ``&lt;alice&gt;''</h1><p>" +:+ crlf +:+
  "<pre>" +:+ crlf +:+
  "-----BEGIN PGP PUBLIC KEY BLOCK-----" +:+ crlf +:+
  "mQENBF4=" +:+ crlf +:+
  "-----END PGP PUBLIC KEY BLOCK-----" +:+ crlf +:+
  "</pre>".
Proof.
  apply (get_body_is_exported_key (Examples.ctx_of [] (Some Examples.armored))
           (request "GET") (Examples.query "GET" "<alice>") "<alice>" Examples.armored);
    first [reflexivity | discriminate].
Defined.

(** *** The index renderer *)

(** The loop over the user ids has finished once the fuel covers one pass
    per user id, and one more when the first pass of a revoked key leaves the
    cursor in place: more fuel changes nothing. *)
Lemma append_key_info_loop_fuel key sk verbose fingerprints :
  forall fuel fuel' (is_first : bool) uid response,
    (List.length uid + (if is_first then 1 else 0) <= fuel)%nat ->
    (List.length uid + (if is_first then 1 else 0) <= fuel')%nat ->
    append_key_info_loop fuel key sk verbose fingerprints is_first uid response =
    append_key_info_loop fuel' key sk verbose fingerprints is_first uid response.
Proof.
  induction fuel as [|fuel IH]; intros fuel' is_first uid response H H'.
  - destruct uid as [|u next]; [destruct fuel'; reflexivity|]. simpl in H. lia.
  - destruct uid as [|u next]; [destruct fuel'; reflexivity|].
    destruct fuel' as [|fuel']; [simpl in H'; lia|].
    cbn [append_key_info_loop].
    destruct is_first, (revoked key); cbn [negb orb];
      apply IH; cbn [List.length] in *; lia.
Qed.

(** The continuation lines of a revoked key: one per user id, each with the
    marker in place of the identity. *)
Lemma append_key_info_loop_revoked key sk fingerprints :
  revoked key = true ->
  forall fuel uid response,
    (List.length uid <= fuel)%nat ->
    append_key_info_loop fuel key sk false fingerprints false uid response =
    response +:+ String.concat "" (map (fun _ => HKP_INDEX_UID_LINE HKP_INDEX_REVOKED) uid).
Proof.
  intros Hr. induction fuel as [|fuel IH]; intros uid response H.
  - destruct uid; [|simpl in H; lia]. cbn. symmetry. apply append_nil_r.
  - destruct uid as [|u next].
    + cbn. symmetry. apply append_nil_r.
    + cbn [append_key_info_loop]. rewrite Hr. cbn [negb orb].
      rewrite IH by (simpl in H; lia). rewrite append_assoc. f_equal.
      destruct next; reflexivity.
Qed.

(** What [append_key_info] writes for a revoked key without signature
    lines: the key line with the marker, the fingerprint line if asked for,
    and a continuation line with the marker for every user id, the first
    one included. *)
Lemma append_key_info_revoked key sk sks fingerprints response :
  revoked key = true -> subkeys key = sk :: sks -> uids key <> [] ->
  append_key_info response key false fingerprints =
  (response +:+
   HKP_INDEX_KEY_LINE (int_of_guint (sk_length sk)) (get_key_algo_letter key)
     (last_x (fpr sk) 8) (last_x (fpr sk) 8) (strftime_ymd 16 (timestamp sk))
     HKP_INDEX_REVOKED +:+
   (if fingerprints then HKP_INDEX_FPR_LINE (fingerprint_loop 0 (fpr sk)) else "")) +:+
  String.concat "" (map (fun _ => HKP_INDEX_UID_LINE HKP_INDEX_REVOKED) (uids key)).
Proof.
  intros Hr Hsk Hu. unfold append_key_info. rewrite Hsk.
  destruct (uids key) as [|u next] eqn:E; [contradiction|].
  cbn [append_key_info_loop]. rewrite Hr. cbn [negb orb].
  unfold format_key_fingerprint. rewrite Hsk. cbn [default from_option id].
  rewrite append_key_info_loop_revoked by (exact Hr || (simpl; lia)).
  destruct fingerprints.
  - rewrite (append_assoc response). reflexivity.
  - rewrite append_nil_r. reflexivity.
Qed.

(** C1, on the code: for the revoked key with the user ids Alice and Bob the
    renderer writes the marker on the key line and again on each of the two
    continuation lines; neither name is written. *)
Theorem revoked_key_marks_every_line :
  append_key_info "" Examples.revoked_key false false =
    HKP_INDEX_KEY_LINE 1024 "D" "BBBB2222" "BBBB2222" "2020/01/15" HKP_INDEX_REVOKED +:+
    HKP_INDEX_UID_LINE HKP_INDEX_REVOKED +:+
    HKP_INDEX_UID_LINE HKP_INDEX_REVOKED /\
  contains (HKP_INDEX_UID_LINE (format_key_uid (Some "Bob") "AAAA1111BBBB2222" None))
    (append_key_info "" Examples.revoked_key false false) = false /\
  contains "Bob" (append_key_info "" Examples.revoked_key false false) = false.
Proof. repeat split; vm_compute; reflexivity. Qed.

(** *** The index scenario *)

Lemma strftime_jan_15_2020 t :
  Examples.jan_15_2020 <= t < Examples.jan_15_2020 + 86400 ->
  strftime_ymd 16 t = "2020/01/15".
Proof.
  unfold Examples.jan_15_2020. intros H.
  unfold strftime_ymd, gmtime_ymd.
  replace (t / 86400) with 18276; [reflexivity|].
  apply (Z.div_unique t 86400 18276 (t - 18276 * 86400)); lia.
Qed.

(** C9, as the code has it: the index lookup for alice, answered by the
    keystore with the one key of the scenario created at any moment of
    2020-01-15 (UTC), gets status 200 and the index page with the one key
    line; the key id shown is BBBB2222, the last eight characters of the
    fingerprint, inside its link; the date 2020/01/15 and Alice occur. *)
Theorem index_scenario_alice ctx (t : Z) (sigs : list gpgme_key_sig_t) :
  Examples.jan_15_2020 <= t < Examples.jan_15_2020 + 86400 ->
  gpgme_op_keylist_start ctx "alice" = 0 ->
  gpgme_op_keylist_next ctx GPGME_KEYLIST_MODE_LOCAL "alice" = [Examples.alice_key t sigs] ->
  let r := soup_server_handle ctx "/pks/lookup" (request "GET")
             (Some (Examples.query "index" "alice")) in
  status_code r = 200 /\
  response_body r =
    HKP_INDEX_PREFIX "alice" "alice" +:+
    HKP_INDEX_KEY_LINE 2048 "R" "BBBB2222" "BBBB2222" "2020/01/15" "Alice " +:+
    HKP_INDEX_SUFFIX /\
  contains ("pub  2048R/<a href=" +:+ dquote +:+ "/pks/lookup?op=get&search=0xBBBB2222" +:+
            dquote +:+ ">BBBB2222</a> 2020/01/15 Alice ") (response_body r) = true /\
  contains "2020/01/15" (response_body r) = true /\
  contains "Alice" (response_body r) = true.
Proof.
  intros Ht Hstart Hkeys r.
  assert (Hr : r = soup_message_set_status
                 (soup_message_set_response
                    (soup_message_headers_append (request "GET") "Connection" "close")
                    "text/html"
                    (HKP_INDEX_PREFIX "alice" "alice" +:+
                     HKP_INDEX_KEY_LINE 2048 "R" "BBBB2222" "BBBB2222" "2020/01/15" "Alice " +:+
                     HKP_INDEX_SUFFIX)
                    (strlen (HKP_INDEX_PREFIX "alice" "alice" +:+
                     HKP_INDEX_KEY_LINE 2048 "R" "BBBB2222" "BBBB2222" "2020/01/15" "Alice " +:+
                     HKP_INDEX_SUFFIX))) 200).
  { subst r. unfold soup_server_handle.
    replace (under_handler "/pks/lookup" "/pks/lookup") with true by reflexivity.
    rewrite (lookup_callback_dispatch ctx (request "GET") (Examples.query "index" "alice")
               eq_refl ltac:(vm_compute; discriminate)).
    cbv zeta.
    replace (null_or_empty (Examples.query "index" "alice" !! "op")) with false
      by reflexivity.
    replace (Spec.op_is (Examples.query "index" "alice") "index") with true by reflexivity.
    unfold lookup_handle_index.
    replace (Examples.query "index" "alice" !! "search") with (Some "alice") by reflexivity.
    replace (Examples.query "index" "alice" !! "fingerprint") with (@None string)
      by reflexivity.
    change (default "" (Some "alice")) with "alice".
    cbn [null_or_empty]. rewrite Hstart, Hkeys. cbn [Z.eqb negb].
    unfold Examples.alice_key.
    cbn [keylist_loop append_key_info subkeys uids List.length append_key_info_loop
         revoked negb orb timestamp].
    rewrite (strftime_jan_15_2020 t Ht). reflexivity. }
  rewrite Hr. repeat split; vm_compute; reflexivity.
Qed.

Lemma index_scenario_alice_witness :
  status_code
    (soup_server_handle (Examples.ctx_of [Examples.alice_key 1579100000 []] None)
       "/pks/lookup" (request "GET") (Some (Examples.query "index" "alice"))) = 200.
Proof.
  apply (index_scenario_alice (Examples.ctx_of [Examples.alice_key 1579100000 []] None)
           1579100000 []).
  - unfold Examples.jan_15_2020. lia.
  - reflexivity.
  - reflexivity.
Defined.

(** C9, as the specification words it, fails on the scenario itself: the
    text [pub  2048R/11BBBB2222] does not occur in the page. *)
Lemma index_scenario_alice_no_long_id :
  ~ (let r := soup_server_handle
                (Examples.ctx_of [Examples.alice_key Examples.jan_15_2020 []] None)
                "/pks/lookup" (request "GET") (Some (Examples.query "index" "alice")) in
     status_code r = 200 /\
     contains "pub  2048R/11BBBB2222" (response_body r) = true /\
     contains "2020/01/15" (response_body r) = true /\
     contains "Alice" (response_body r) = true).
Proof. vm_compute. intros (_ & H & _). discriminate H. Qed.

End HkpFacts.

(** ** Facts about the publisher *)

Module SharingFacts.
Import Sharing.

Lemma int_wrap_small n : - 2 ^ 31 <= n <= INT_MAX -> int_wrap n = n.
Proof.
  unfold int_wrap, INT_MAX. intros H.
  rewrite Z.mod_small by lia. lia.
Qed.

(** Unfolds the monad and the accessors, leaves the data alone. *)
Ltac run :=
  cbv [services_callback client_callback client_state_changed dns_sd_get_poll stop_sharing
       add_service calc_share_name stop_publishing collisions
       bind ret get g_assert emit emit_all when when_some
       set_avahi_group set_avahi_client set_avahi_poll set_share_name set_share_alternate
       set_hkp avahi_group avahi_client avahi_poll share_name share_alternate hkp trace
       default from_option id negb].

(** One collision: the counter goes up by one, the name is computed anew
    from it, and the service record is added again under the same group
    before the callback returns; when Avahi takes it the globals keep the
    new name. *)
Lemma collision_step G group A w k :
  avahi_group w = Some group -> share_alternate w = k -> 0 <= k < INT_MAX ->
  let name := Spec.base_name G +:+ " #" +:+ fmt_d (k + 1) in
  exists w2 rest,
    services_callback G group AVAHI_ENTRY_GROUP_COLLISION A w = Some (tt, w2) /\
    trace w2 =
      (trace w ++
       [g_warning "naming collision trying new name: %s" (arg_string (Some name));
        avahi_entry_group_add_service (Some group) (Some name) HKP_SERVICE_TYPE
          (Hkp.seahorse_hkp_server_get_port (soup_server_get_port G) (hkp w))] ++
       rest)%list /\
    hkp w2 = hkp w /\
    (Spec.registered A = true ->
     rest = [avahi_entry_group_commit (Some group)] /\
     share_name w2 = Some name /\ share_alternate w2 = k + 1 /\
     avahi_group w2 = Some group /\ avahi_client w2 = avahi_client w /\
     avahi_poll w2 = avahi_poll w) /\
    (Spec.registered A = false ->
     share_name w2 = None /\ avahi_group w2 = None /\ avahi_client w2 = None /\
     In (avahi_entry_group_free group) rest).
Proof.
  intros Hg Halt Hk name.
  destruct w as [g c p n alt s tr].
  cbn [avahi_group share_alternate trace hkp avahi_client avahi_poll] in *. subst g alt.
  unfold Spec.registered. run. rewrite Pos.eqb_refl.
  rewrite int_wrap_small by (unfold INT_MAX in *; lia).
  destruct (Z.eqb_spec (k + 1) 0) as [E|_]; [lia|].
  fold (Spec.base_name G). fold name.
  destruct (0 <=? avahi_entry_group_add_service_r A) eqn:Eadd.
  - destruct (avahi_entry_group_commit_r A <? 0) eqn:Ecommit.
    + assert (Hc : (0 <=? avahi_entry_group_commit_r A) = false).
      { apply Z.leb_gt. apply Z.ltb_lt in Ecommit. exact Ecommit. }
      rewrite Hc.
      destruct c; eexists; eexists; (split; [reflexivity|]);
        cbn [trace hkp share_name avahi_group avahi_client];
        (split; [rewrite <- !app_assoc; reflexivity|]);
        (split; [reflexivity|]); (split; [intros H; discriminate H|]);
        intros _; repeat split; cbn; auto.
    + assert (Hc : (0 <=? avahi_entry_group_commit_r A) = true).
      { apply Z.leb_le. apply Z.ltb_ge in Ecommit. exact Ecommit. }
      rewrite Hc.
      eexists; eexists; (split; [reflexivity|]).
      cbn [trace hkp share_name share_alternate avahi_group avahi_client avahi_poll].
      split; [rewrite <- !app_assoc; reflexivity|].
      split; [reflexivity|]. split; [|intros H; discriminate H].
      intros _. repeat split; reflexivity.
  - assert (Hneg : (avahi_entry_group_add_service_r A <? 0) = true).
    { apply Z.ltb_lt. apply Z.leb_gt in Eadd. exact Eadd. }
    rewrite Hneg.
    destruct c; eexists; eexists; (split; [reflexivity|]);
      cbn [trace hkp share_name avahi_group avahi_client andb];
      (split; [rewrite <- !app_assoc; reflexivity|]);
      (split; [reflexivity|]); (split; [intros H; discriminate H|]);
      intros _; repeat split; cbn; auto.
Qed.

(** Collisions that Avahi all answers by taking the new record leave group
    and client in place and count up. *)
Lemma collisions_registered G group answers :
  forall w k,
    avahi_group w = Some group -> share_alternate w = k ->
    0 <= k -> k + Z.of_nat (List.length answers) <= INT_MAX ->
    forallb Spec.registered answers = true ->
    exists w1,
      collisions G group answers w = Some (tt, w1) /\
      avahi_group w1 = Some group /\ avahi_client w1 = avahi_client w /\
      avahi_poll w1 = avahi_poll w /\ hkp w1 = hkp w /\
      share_alternate w1 = k + Z.of_nat (List.length answers).
Proof.
  induction answers as [|A answers IH]; intros w k Hg Halt Hk Hmax Hreg.
  - exists w. cbn [List.length Z.of_nat]. rewrite Z.add_0_r. repeat split; assumption.
  - cbn [forallb] in Hreg. apply andb_prop in Hreg as [HA Hreg].
    cbn [List.length] in Hmax. rewrite Nat2Z.inj_succ in Hmax.
    destruct (collision_step G group A w k Hg Halt ltac:(lia))
      as (w2 & rest & Hstep & _ & Hhkp & Hok & _).
    destruct (Hok HA) as (_ & _ & Halt2 & Hg2 & Hc2 & Hp2).
    destruct (IH w2 (k + 1) Hg2 Halt2 ltac:(lia) ltac:(lia) Hreg)
      as (w1 & Hrun & Hg1 & Hc1 & Hp1 & Hhkp1 & Halt1).
    exists w1. cbn [collisions]. unfold bind at 1. rewrite Hstep.
    split; [exact Hrun|].
    cbn [List.length]. rewrite Nat2Z.inj_succ.
    repeat split; [assumption|congruence|congruence|congruence|lia].
Qed.

Lemma collisions_app G group answers A w w1 :
  collisions G group answers w = Some (tt, w1) ->
  collisions G group (answers ++ [A]) w =
  services_callback G group AVAHI_ENTRY_GROUP_COLLISION A w1.
Proof.
  revert w. induction answers as [|B answers IH]; intros w.
  - cbn [collisions app]. unfold ret. intros [= <-]. unfold bind.
    destruct (services_callback _ _ _ _ _) as [[[] ?]|]; reflexivity.
  - cbn [collisions app]. unfold bind.
    destruct (services_callback G group AVAHI_ENTRY_GROUP_COLLISION B w) as [[[] w']|];
      [apply IH|discriminate].
Qed.

(** C4, as the code has it: take a manager that is publishing under [group]
    with the collision counter at 0, and deliver [n] collisions of the entry
    group ([n] within the range of the counter), the first [n - 1] of them
    answered by a registration that Avahi takes.  In the callback of the
    [n]-th collision the name is computed as the base name followed by
    [ #n], and the service record is added again under that name and the
    same group before the callback returns.  When Avahi takes this
    registration too, the share name is that name afterwards and client and
    group are the ones from before; when Avahi refuses it, the callback has
    freed group and client and cleared the share name. *)
Theorem collisions_rename G (group : positive) (answers : list avahi) (A : avahi)
    (w : world) :
  avahi_group w = Some group -> share_alternate w = 0 ->
  forallb Spec.registered answers = true ->
  let n := Z.of_nat (List.length answers) + 1 in
  n <= INT_MAX ->
  let name := Spec.base_name G +:+ " #" +:+ fmt_d n in
  exists w1 w2 rest,
    collisions G group answers w = Some (tt, w1) /\
    services_callback G group AVAHI_ENTRY_GROUP_COLLISION A w1 = Some (tt, w2) /\
    collisions G group (answers ++ [A]) w = Some (tt, w2) /\
    trace w2 =
      (trace w1 ++
       [g_warning "naming collision trying new name: %s" (arg_string (Some name));
        avahi_entry_group_add_service (Some group) (Some name) HKP_SERVICE_TYPE
          (Hkp.seahorse_hkp_server_get_port (soup_server_get_port G) (hkp w))] ++
       rest)%list /\
    (Spec.registered A = true ->
     rest = [avahi_entry_group_commit (Some group)] /\
     share_name w2 = Some name /\ share_alternate w2 = n /\
     avahi_group w2 = Some group /\ avahi_client w2 = avahi_client w) /\
    (Spec.registered A = false ->
     share_name w2 = None /\ avahi_group w2 = None /\ avahi_client w2 = None /\
     In (avahi_entry_group_free group) rest).
Proof.
  intros Hg Halt Hreg n Hmax name.
  destruct (collisions_registered G group answers w 0 Hg Halt ltac:(lia)
              ltac:(subst n; lia) Hreg)
    as (w1 & Hrun & Hg1 & Hc1 & Hp1 & Hhkp1 & Halt1).
  destruct (collision_step G group A w1 (0 + Z.of_nat (List.length answers)) Hg1 Halt1
              ltac:(subst n; lia))
    as (w2 & rest & Hstep & Htrace & Hhkp2 & Hok & Hfail).
  replace (0 + Z.of_nat (List.length answers) + 1) with n in * by (subst n; lia).
  exists w1, w2, rest.
  split; [exact Hrun|]. split; [exact Hstep|].
  split; [rewrite (collisions_app G group answers A w w1 Hrun); exact Hstep|].
  split; [rewrite Htrace, Hhkp1; reflexivity|].
  split; [|exact Hfail].
  intros HA. destruct (Hok HA) as (Hrest & Hname & Halt2 & Hg2 & Hc2 & _).
  repeat split; [assumption|assumption|assumption|assumption|congruence].
Qed.

Lemma collisions_rename_witness :
  exists w2,
    collisions Examples.glib_alice 4 [Examples.avahi_ok; Examples.avahi_ok]
      Examples.published = Some (tt, w2) /\
    share_name w2 = Some "Alice's encryption keys #2".
Proof.
  destruct (collisions_rename Examples.glib_alice 4 [Examples.avahi_ok] Examples.avahi_ok
              Examples.published eq_refl eq_refl eq_refl ltac:(vm_compute; discriminate))
    as (w1 & w2 & rest & _ & _ & Hrun & _ & Hok & _).
  exists w2. split; [exact Hrun|].
  destruct (Hok eq_refl) as (_ & Hname & _). exact Hname.
Defined.

(** C4, as the specification words it, fails when Avahi refuses the new
    record: after the first collision the share name is cleared, not the
    base name followed by [ #1]. *)
Lemma collision_refused_clears_name :
  ~ (exists w2,
       services_callback Examples.glib_alice 4 AVAHI_ENTRY_GROUP_COLLISION
         Examples.avahi_refusing Examples.published = Some (tt, w2) /\
       share_name w2 = Some (Spec.base_name Examples.glib_alice +:+ " #1")).
Proof.
  intros (w2 & Hrun & Hname). vm_compute in Hrun.
  injection Hrun as <-. discriminate Hname.
Qed.

(** [start_publishing] by its body: the recursion is on the answers of the
    callback that runs inside [avahi_client_new]. *)
Lemma start_publishing_eq G A :
  start_publishing G A =
    (set_share_alternate 0 ;;
     calc_share_name G ;;
     let* poll := dns_sd_get_poll A in
     emit (avahi_client_new poll) ;;
     match avahi_client_new_r A, avahi_client_new_calls A with
     | Some client, Some (state, inside) => client_callback G client state inside
     | _, _ => ret tt
     end ;;
     set_avahi_client (avahi_client_new_r A) ;;
     let* c := get avahi_client in
     ret (match c with Some _ => true | None => false end)).
Proof. destruct A; reflexivity. Qed.

(** [start_publishing] up to the moment [avahi_client_new] is called, and
    what follows: nothing but the assignment when Avahi does not run the
    callback, the callback on the new client and then the assignment when it
    does. *)
Lemma start_publishing_asks G A w :
  let poll :=
    match avahi_poll w with Some p => Some p | None => avahi_glib_poll_new_r A end in
  let asked client :=
    {| avahi_group := avahi_group w; avahi_client := client; avahi_poll := poll;
       share_name := Some (Spec.base_name G); share_alternate := 0; hkp := hkp w;
       trace :=
         (trace w ++
          match avahi_poll w with
          | Some _ => []
          | None =>
              avahi_glib_poll_new ::
              match avahi_glib_poll_new_r A with
              | Some _ => []
              | None => [g_warning "couldn't initialize avahi glib poll integration" no_arg]
              end
          end ++ [avahi_client_new poll])%list |} in
  start_publishing G A w =
    match avahi_client_new_r A with
    | None => Some (false, asked None)
    | Some c =>
        match avahi_client_new_calls A with
        | None => Some (true, asked (Some c))
        | Some (state, inside) =>
            (client_callback G c state inside ;; set_avahi_client (Some c) ;; ret true)
              (asked (avahi_client w))
        end
    end.
Proof.
  intros poll asked. subst poll asked. rewrite start_publishing_eq.
  destruct w as [g c p n alt s tr].
  cbv [dns_sd_get_poll calc_share_name bind ret get emit when negb Z.eqb
       set_avahi_client set_avahi_poll set_share_name set_share_alternate
       avahi_group avahi_client avahi_poll share_name share_alternate hkp trace
       default from_option id].
  fold (Spec.base_name G).
  destruct (avahi_client_new_r A) as [c'|], (avahi_client_new_calls A) as [[st inside]|],
    p as [p|]; try destruct (avahi_glib_poll_new_r A) as [p|];
    cbn [app]; rewrite <- ?app_assoc; cbn [app];
    reflexivity.
Qed.

(** C5: on a failure of the client the callback logs it unless it is a
    disconnect, then tears down: [stop_publishing] frees the group and the
    client that are held and leaves no group, no client and no share name,
    and shows the error dialog exactly when the error is not a disconnect.
    The callback then sleeps one second and starts publishing again,
    whatever the error was: it is [start_publishing] run from the torn-down
    world, which asks Avahi for a new client with the counter at 0 and the
    share name computed anew as the base name.  The client is what
    [avahi_client_new] gave; when Avahi reports the state of the new client
    while [avahi_client_new] runs, the callback handles that report first,
    with no client assigned yet. *)
Theorem client_failure_restarts G (client : positive) (A : avahi) (w : world) :
  avahi_client w = None \/ avahi_client w = Some client ->
  let errmsg := negb (avahi_client_errno A =? AVAHI_ERR_DISCONNECTED) in
  let dialog :=
    show_error "Couldn't share keys" "Can't publish discovery information on the network." in
  let warned :=
    if errmsg
    then [g_warning "failure talking with avahi: %s"
            (arg_avahi_strerror (avahi_client_errno A))]
    else [] in
  let teardown :=
    (option_list (avahi_entry_group_free <$> avahi_group w) ++
     option_list (avahi_client_free <$> avahi_client w) ++
     (if errmsg then [dialog] else []))%list in
  let torn :=
    {| avahi_group := None; avahi_client := None; avahi_poll := avahi_poll w;
       share_name := None; share_alternate := share_alternate w; hkp := hkp w;
       trace := (trace w ++ warned ++ teardown)%list |} in
  let poll :=
    match avahi_poll w with Some p => Some p | None => avahi_glib_poll_new_r A end in
  let restart :=
    ([sleep 1] ++
     match avahi_poll w with
     | Some _ => []
     | None =>
         avahi_glib_poll_new ::
         match avahi_glib_poll_new_r A with
         | Some _ => []
         | None => [g_warning "couldn't initialize avahi glib poll integration" no_arg]
         end
     end ++ [avahi_client_new poll])%list in
  let asked new_client :=
    {| avahi_group := None; avahi_client := new_client; avahi_poll := poll;
       share_name := Some (Spec.base_name G); share_alternate := 0; hkp := hkp w;
       trace := (trace w ++ warned ++ teardown ++ restart)%list |} in
  stop_publishing errmsg
    {| avahi_group := avahi_group w; avahi_client := avahi_client w;
       avahi_poll := avahi_poll w; share_name := share_name w;
       share_alternate := share_alternate w; hkp := hkp w;
       trace := (trace w ++ warned)%list |} = Some (tt, torn) /\
  (In dialog teardown <-> avahi_client_errno A <> AVAHI_ERR_DISCONNECTED) /\
  client_callback G client AVAHI_CLIENT_FAILURE A w =
    (emit (sleep 1) ;; let* started := start_publishing G A in ret tt) torn /\
  client_callback G client AVAHI_CLIENT_FAILURE A w =
    match avahi_client_new_r A with
    | None => Some (tt, asked None)
    | Some c =>
        match avahi_client_new_calls A with
        | None => Some (tt, asked (Some c))
        | Some (state, inside) =>
            (client_callback G c state inside ;; set_avahi_client (Some c)) (asked None)
        end
    end.
Proof.
  intros Hc errmsg dialog warned teardown torn poll restart asked.
  assert (Hdialog : In dialog teardown <-> avahi_client_errno A <> AVAHI_ERR_DISCONNECTED).
  { subst teardown errmsg dialog.
    destruct (Z.eqb_spec (avahi_client_errno A) AVAHI_ERR_DISCONNECTED) as [E|E];
      cbn [negb]; rewrite !in_app_iff; split.
    - intros [H|[H|[]]]; exfalso.
      + destruct (avahi_group w); cbn in H; [destruct H as [H|[]]; discriminate H|exact H].
      + destruct (avahi_client w); cbn in H; [destruct H as [H|[]]; discriminate H|exact H].
    - intros H. contradiction.
    - intros _. exact E.
    - intros _. right. right. left. reflexivity. }
  assert (Hassert : match avahi_client w with
                    | None => true
                    | Some c' => Pos.eqb client c'
                    end = true).
  { destruct Hc as [-> | ->]; [reflexivity|apply Pos.eqb_refl]. }
  assert (Htorn :
    stop_publishing errmsg
      {| avahi_group := avahi_group w; avahi_client := avahi_client w;
         avahi_poll := avahi_poll w; share_name := share_name w;
         share_alternate := share_alternate w; hkp := hkp w;
         trace := (trace w ++ warned)%list |} = Some (tt, torn)).
  { subst torn teardown warned dialog. destruct w as [g c p n alt s tr].
    cbn [avahi_group avahi_client avahi_poll share_name share_alternate hkp trace].
    destruct errmsg, g, c; run;
      cbn [option_list fmap option_fmap option_map app];
      rewrite <- ?app_assoc, ?app_nil_r; reflexivity. }
  assert (Hrestart :
    client_callback G client AVAHI_CLIENT_FAILURE A w =
      (emit (sleep 1) ;; let* started := start_publishing G A in ret tt) torn).
  { unfold client_callback, client_state_changed.
    unfold bind at 1. unfold get at 1. unfold bind at 1. unfold g_assert at 1.
    rewrite Hassert. fold errmsg.
    change (when errmsg
              (emit (g_warning "failure talking with avahi: %s"
                       (arg_avahi_strerror (avahi_client_errno A)))))
      with (emit_all warned) || idtac.
    unfold bind at 1.
    replace (when errmsg
               (emit (g_warning "failure talking with avahi: %s"
                        (arg_avahi_strerror (avahi_client_errno A)))) w)
      with (Some (tt, {| avahi_group := avahi_group w; avahi_client := avahi_client w;
                         avahi_poll := avahi_poll w; share_name := share_name w;
                         share_alternate := share_alternate w; hkp := hkp w;
                         trace := (trace w ++ warned)%list |})).
    2:{ subst warned. destruct w, errmsg; cbv [when emit ret trace avahi_group avahi_client
          avahi_poll share_name share_alternate hkp]; rewrite ?app_nil_r; reflexivity. }
    unfold bind at 1. rewrite Htorn. reflexivity. }
  split; [exact Htorn|]. split; [exact Hdialog|]. split; [exact Hrestart|].
  rewrite Hrestart.
  unfold bind at 1. unfold emit at 1.
  unfold bind at 1.
  pose proof (start_publishing_asks G A
                {| avahi_group := None; avahi_client := None; avahi_poll := avahi_poll w;
                   share_name := None; share_alternate := share_alternate w; hkp := hkp w;
                   trace := (trace torn ++ [sleep 1])%list |}) as H.
  cbv zeta in H.
  cbn [avahi_group avahi_client avahi_poll share_name share_alternate hkp trace] in H.
  subst torn.
  cbn [avahi_group avahi_client avahi_poll share_name share_alternate hkp trace] in *.
  rewrite H. clear H.
  subst asked restart poll.
  assert (Htr : forall rest : list effect,
            (((trace w ++ warned ++ teardown) ++ [sleep 1]) ++ rest =
             trace w ++ warned ++ teardown ++ [sleep 1] ++ rest)%list).
  { intros rest. rewrite <- !app_assoc. reflexivity. }
  rewrite Htr.
  destruct (avahi_client_new_r A) as [c'|]; [|reflexivity].
  destruct (avahi_client_new_calls A) as [[st inside]|]; [|reflexivity].
  unfold bind, ret, set_avahi_client.
  match goal with
  | |- context [client_callback G c' st inside ?w0] =>
      destruct (client_callback G c' st inside w0) as [[[] w2]|]
  end; reflexivity.
Qed.

Lemma client_failure_restarts_witness :
  client_callback Examples.glib_alice 3 AVAHI_CLIENT_FAILURE Examples.avahi_running_at_once
    Examples.published =
  Some (tt,
        {| avahi_group := Some 7%positive; avahi_client := Some 9%positive;
           avahi_poll := Some 2%positive;
           share_name := Some "Alice's encryption keys"; share_alternate := 0;
           hkp := hkp Examples.published;
           trace :=
             [g_warning "failure talking with avahi: %s" (arg_avahi_strerror 0);
              avahi_entry_group_free 4; avahi_client_free 3;
              show_error "Couldn't share keys"
                "Can't publish discovery information on the network.";
              sleep 1; avahi_client_new (Some 2%positive);
              avahi_entry_group_new 9;
              avahi_entry_group_add_service (Some 7%positive)
                (Some "Alice's encryption keys") "_pgpkey-hkp._tcp." 40123;
              avahi_entry_group_commit (Some 7%positive)] |}).
Proof.
  destruct (client_failure_restarts Examples.glib_alice 3 Examples.avahi_running_at_once
              Examples.published (or_intror eq_refl)) as (_ & _ & _ & H).
  rewrite H. vm_compute. reflexivity.
Defined.

(** C7: stopping the HKP server does nothing exactly when it holds neither
    handle, which is the case after any stop: a second stop in a row
    releases nothing and leaves both handles as they are.  A server that is
    not running but still holds a GPGME context has that context released
    by the stop.  [stop_sharing] after [stop_sharing] returns the world it
    was given: handles, share name and the list of effects are the same. *)
Theorem stop_twice (s : Hkp.server) (w : world) :
  (Hkp.seahorse_hkp_server_stop s = (s, []) <->
   Hkp.soup_server s = None /\ Hkp.gpgme_ctx s = None) /\
  (let s1 := fst (Hkp.seahorse_hkp_server_stop s) in
   Hkp.seahorse_hkp_server_stop s1 = (s1, []) /\
   Hkp.seahorse_hkp_server_is_running s1 = false) /\
  (forall c,
     Hkp.soup_server s = None -> Hkp.gpgme_ctx s = Some c ->
     Hkp.seahorse_hkp_server_is_running s = false /\
     Hkp.seahorse_hkp_server_stop s =
       ({| Hkp.soup_server := None; Hkp.gpgme_ctx := None |}, [Hkp.gpgme_release c])) /\
  (exists w1, stop_sharing w = Some (tt, w1) /\ stop_sharing w1 = Some (tt, w1)).
Proof.
  split; [|split; [|split]].
  - destruct s as [[h|] [c|]]; cbn; split;
      solve [ intros H; discriminate H
            | intros [H1 H2]; discriminate
            | intros _; split; reflexivity
            | intros _; reflexivity ].
  - destruct s as [[h|] [c|]]; split; reflexivity.
  - intros c Hs Hc. destruct s as [h x]. cbn in Hs, Hc. subst h x. split; reflexivity.
  - destruct w as [[g|] [c|] p n alt [[h|] [x|]] tr]; run;
      cbv [Hkp.seahorse_hkp_server_is_running Hkp.seahorse_hkp_server_stop
           Hkp.soup_server Hkp.gpgme_ctx map app];
      run; eexists; split; reflexivity.
Qed.

Lemma stop_twice_witness :
  Hkp.seahorse_hkp_server_stop
    {| Hkp.soup_server := None; Hkp.gpgme_ctx := Some 11%positive |} =
  ({| Hkp.soup_server := None; Hkp.gpgme_ctx := None |}, [Hkp.gpgme_release 11]).
Proof.
  destruct (stop_twice {| Hkp.soup_server := None; Hkp.gpgme_ctx := Some 11%positive |}
              Examples.published) as (_ & _ & H & _).
  apply (H 11%positive eq_refl eq_refl).
Defined.

(** C7, as the specification words it, fails for a server that is not
    running but holds a GPGME context: after a start that made the context
    and then found no socket, the stop releases the context. *)
Lemma stop_not_running_releases_context :
  let s := Hkp.after_start
             (Hkp.seahorse_hkp_server_start Samples.start_no_socket Samples.stopped_server) in
  ~ (Hkp.seahorse_hkp_server_is_running s = false ->
     Hkp.seahorse_hkp_server_stop s = (s, [])).
Proof.
  intros s H. specialize (H eq_refl). vm_compute in H. discriminate H.
Qed.

End SharingFacts.

(** ** More facts about the renderer *)

Module RenderFacts.
Import Hkp CStrFacts HkpFacts Obs.

Lemma app_cons c a b : String c a +:+ b = String c (a +:+ b).
Proof. reflexivity. Qed.

Lemma length_app a b : String.length (a +:+ b) = (String.length a + String.length b)%nat.
Proof.
  induction a as [|c a IH]; [reflexivity|].
  rewrite app_cons. cbn [String.length]. rewrite IH. reflexivity.
Qed.

Lemma substring_split s :
  forall n, (n <= String.length s)%nat ->
    s = String.substring 0 n s +:+ String.substring n (String.length s - n) s.
Proof.
  induction s as [|c s IH]; intros n Hn.
  - destruct n; [reflexivity|simpl in Hn; lia].
  - destruct n as [|n].
    + cbn [String.substring String.length Nat.sub]. change ("" +:+ ?x) with x.
      f_equal. clear. induction s as [|d s IH]; [reflexivity|].
      cbn [String.substring String.length]. f_equal. exact IH.
    + cbn [String.substring String.length Nat.sub]. rewrite app_cons. f_equal.
      apply IH. simpl in Hn. lia.
Qed.

Lemma length_substring s :
  forall n m, (n + m <= String.length s)%nat -> String.length (String.substring n m s) = m.
Proof.
  induction s as [|c s IH]; intros n m H.
  - simpl in H. assert (n = 0%nat) by lia. assert (m = 0%nat) by lia. subst. reflexivity.
  - destruct n as [|n]; destruct m as [|m]; cbn [String.substring String.length].
    + reflexivity.
    + f_equal. apply IH. simpl in H. lia.
    + apply IH. simpl in H. lia.
    + apply IH. simpl in H. lia.
Qed.

(** X1: [last_x str len] is the end of [str], [len] bytes long, or all of
    [str] when [str] is not longer than [len]. *)
Theorem last_x_is_suffix (str : string) (len : nat) :
  (exists p, str = p +:+ last_x str len) /\
  String.length (last_x str len) = Nat.min len (String.length str).
Proof.
  unfold last_x. destruct (Nat.ltb_spec len (String.length str)) as [H|H].
  - split.
    + exists (String.substring 0 (String.length str - len) str).
      pose proof (substring_split str (String.length str - len) ltac:(lia)) as Hs.
      replace (String.length str - (String.length str - len))%nat with len in Hs by lia.
      exact Hs.
    + rewrite length_substring by lia. lia.
  - split; [exists ""; reflexivity|lia].
Qed.

Lemma occurs_app c a b : occurs c (a +:+ b) = occurs c a || occurs c b.
Proof.
  induction a as [|x a IH]; [reflexivity|].
  rewrite app_cons. cbn [occurs]. rewrite IH. apply orb_assoc.
Qed.

(** X2: whatever the input, the output of [escape_html] holds no [<], no
    [>] and no double quote. *)
Theorem escape_html_no_markup (s : string) :
  occurs "<" (escape_html s) = false /\
  occurs ">" (escape_html s) = false /\
  occurs "034" (escape_html s) = false.
Proof.
  induction s as [|c s (IH1 & IH2 & IH3)]; [repeat split; reflexivity|].
  cbn [escape_html]. rewrite !occurs_app, IH1, IH2, IH3, !orb_false_r.
  destruct (Ascii.eqb c "<") eqn:E1; [repeat split; reflexivity|].
  destruct (Ascii.eqb c ">") eqn:E2; [repeat split; reflexivity|].
  destruct (Ascii.eqb c "&") eqn:E3; [repeat split; reflexivity|].
  destruct (Ascii.eqb c "034") eqn:E4; [repeat split; reflexivity|].
  cbn [occurs]. rewrite E1, E2, E4. repeat split; reflexivity.
Qed.

Lemma length_escape_html s : (String.length s <= String.length (escape_html s))%nat.
Proof.
  induction s as [|c s IH]; [reflexivity|].
  cbn [escape_html]. rewrite length_app. cbn [String.length].
  destruct (Ascii.eqb c "<"); [cbn [String.length]; lia|].
  destruct (Ascii.eqb c ">"); [cbn [String.length]; lia|].
  destruct (Ascii.eqb c "&"); [cbn [String.length]; lia|].
  destruct (Ascii.eqb c "034"); cbn [String.length]; lia.
Qed.

(** X3: [escape_html] returns its input unchanged exactly when the input
    holds none of the four bytes it replaces. *)
Theorem escape_html_fixes_plain (s : string) :
  escape_html s = s <-> plain s = true.
Proof.
  induction s as [|c s IH]; [split; reflexivity|].
  cbn [escape_html plain]. unfold special.
  destruct (Ascii.eqb c "<") eqn:E1.
  { apply Ascii.eqb_eq in E1. subst c. split; [|discriminate].
    rewrite !app_cons. intros [= H]. }
  destruct (Ascii.eqb c ">") eqn:E2.
  { apply Ascii.eqb_eq in E2. subst c. split; [|discriminate].
    rewrite !app_cons. intros [= H]. }
  destruct (Ascii.eqb c "&") eqn:E3.
  { apply Ascii.eqb_eq in E3. subst c. split; [|discriminate].
    rewrite !app_cons. change ("" +:+ ?x) with x. intros [= H].
    pose proof (length_escape_html s) as Hl. rewrite <- H in Hl at 1.
    cbn [String.length] in Hl. lia. }
  destruct (Ascii.eqb c "034") eqn:E4.
  { apply Ascii.eqb_eq in E4. subst c. split; [|discriminate].
    rewrite !app_cons. intros [= H]. }
  cbn [orb negb andb]. rewrite app_cons. change ("" +:+ ?x) with x.
  rewrite <- IH. split; [intros [= H]; exact H|intros ->; reflexivity].
Qed.

Lemma app_nil_l (b : string) : "" +:+ b = b.
Proof. reflexivity. Qed.

(** Splits on which of the four bytes [c] is, if any. *)
Ltac classify c :=
  let E := fresh "E" in
  destruct (Ascii.eqb c "<") eqn:E;
    [apply Ascii.eqb_eq in E; subst c|
  let E := fresh "E" in
  destruct (Ascii.eqb c ">") eqn:E;
    [apply Ascii.eqb_eq in E; subst c|
  let E := fresh "E" in
  destruct (Ascii.eqb c "&") eqn:E;
    [apply Ascii.eqb_eq in E; subst c|
  let E := fresh "E" in
  destruct (Ascii.eqb c "034") eqn:E;
    [apply Ascii.eqb_eq in E; subst c|]]]].

(** X4: [escape_html] loses nothing: two inputs with the same output are
    the same input. *)
Theorem escape_html_injective (s1 s2 : string) :
  escape_html s1 = escape_html s2 -> s1 = s2.
Proof.
  revert s2. induction s1 as [|c1 r1 IH]; intros [|c2 r2].
  - reflexivity.
  - cbn [escape_html]. classify c2; rewrite ?app_cons; discriminate.
  - cbn [escape_html]. classify c1; rewrite ?app_cons; discriminate.
  - cbn [escape_html].
    classify c1; classify c2; rewrite ?app_cons, ?app_nil_l; intros H;
      try discriminate H;
      try (injection H as H; f_equal; apply IH; exact H);
      try (injection H as Hc H; subst;
           match goal with
           | E : Ascii.eqb ?x ?x = false |- _ => rewrite Ascii.eqb_refl in E; discriminate E
           end);
      try (injection H as Hc H; subst; f_equal; apply IH; exact H).
Qed.

Lemma escape_html_injective_witness : "a<b" = "a<b".
Proof. apply (escape_html_injective "a<b" "a<b"). reflexivity. Defined.

(** *** The fingerprint line *)

Lemma without_blanks_fingerprint raw :
  occurs " " raw = false ->
  forall i, without_blanks (fingerprint_loop i raw) = raw.
Proof.
  induction raw as [|c raw IH]; intros H i; [reflexivity|].
  cbn [occurs] in H. apply orb_false_elim in H as [Hc Hraw].
  cbn [fingerprint_loop].
  destruct ((0 <? i)%nat && (i mod 4 =? 0)%nat);
    rewrite ?app_cons, ?app_nil_l; cbn [without_blanks];
    rewrite ?Hc; cbn [Ascii.eqb Bool.eqb]; rewrite ?Hc, IH by exact Hraw; reflexivity.
Qed.

Ltac div4 x :=
  pose proof (Nat.div_mod_eq x 4);
  pose proof (Nat.mod_upper_bound x 4 ltac:(discriminate)).

Lemma length_fingerprint raw :
  forall i,
    String.length (fingerprint_loop i raw) =
    (String.length raw + ((i + String.length raw - 1) / 4 - (i - 1) / 4))%nat.
Proof.
  induction raw as [|c raw IH]; intros i.
  - cbn [fingerprint_loop String.length]. rewrite Nat.add_0_r. lia.
  - cbn [fingerprint_loop]. rewrite length_app. cbn [String.length]. rewrite IH.
    replace (S i + String.length raw - 1)%nat with (i + String.length raw)%nat by lia.
    replace (S i - 1)%nat with i by lia.
    replace (i + S (String.length raw) - 1)%nat with (i + String.length raw)%nat by lia.
    div4 i. div4 (i - 1)%nat. div4 (i + String.length raw)%nat.
    destruct (Nat.ltb_spec 0 i) as [Hi|Hi]; cbn [andb].
    + destruct (Nat.eqb_spec (i mod 4) 0) as [Hm|Hm]; cbn [String.length]; lia.
    + cbn [String.length]. lia.
Qed.

(** From the second byte on, the loop only looks at the index modulo 4. *)
Lemma fingerprint_loop_shift raw :
  forall i, (0 < i)%nat -> fingerprint_loop (i + 4) raw = fingerprint_loop i raw.
Proof.
  induction raw as [|c raw IH]; intros i Hi; [reflexivity|].
  cbn [fingerprint_loop].
  change (S (i + 4)) with (S i + 4)%nat. rewrite IH by lia.
  replace ((0 <? i + 4)%nat) with true by (symmetry; apply Nat.ltb_lt; lia).
  replace ((0 <? i)%nat) with true by (symmetry; apply Nat.ltb_lt; lia).
  replace ((i + 4) mod 4)%nat with (i mod 4)%nat; [reflexivity|].
  change (i + 4)%nat with (i + 1 * 4)%nat. symmetry. apply Nat.Div0.mod_add.
Qed.

Lemma fingerprint_loop_short raw :
  (String.length raw <= 4)%nat -> fingerprint_loop 0 raw = raw.
Proof.
  destruct raw as [|c0 [|c1 [|c2 [|c3 [|c4 raw]]]]]; cbn [String.length]; intros H;
    try reflexivity.
  lia.
Qed.

Lemma fingerprint_loop_group a b :
  String.length a = 4%nat -> b <> "" ->
  fingerprint_loop 0 (a +:+ b) = a +:+ " " +:+ fingerprint_loop 0 b.
Proof.
  destruct a as [|c0 [|c1 [|c2 [|c3 [|c4 a]]]]]; cbn [String.length]; intros H Hb;
    try discriminate H.
  destruct b as [|d b]; [contradiction|].
  change (String c0 (String c1 (String c2 (String c3
            (String " " (String d (fingerprint_loop (1 + 4) b)))))) =
          String c0 (String c1 (String c2 (String c3
            (String " " (String d (fingerprint_loop 1 b))))))).
  rewrite fingerprint_loop_shift by lia. reflexivity.
Qed.

(** X5: for a key with a subkey, [format_key_fingerprint] returns the
    fingerprint in groups of four bytes with one blank between two groups:
    a fingerprint of at most four bytes is returned as it is, and a longer
    one as its first four bytes, a blank, and the rest formatted in the
    same way.  So [n] bytes become [n + (n - 1) / 4], and taking the blanks
    out again gives the fingerprint back (which holds none itself, being
    hex). *)
Theorem format_key_fingerprint_groups (key : gpgme_key_t) (sk : gpgme_subkey_t)
    (sks : list gpgme_subkey_t) :
  subkeys key = sk :: sks ->
  let with_fpr raw :=
    {| revoked := revoked key;
       subkeys := {| pubkey_algo := pubkey_algo sk; sk_length := sk_length sk;
                     fpr := raw; timestamp := timestamp sk |} :: sks;
       uids := uids key |} in
  exists f,
    format_key_fingerprint key = Some f /\
    ((String.length (fpr sk) <= 4)%nat -> f = fpr sk) /\
    (forall a b,
       fpr sk = a +:+ b -> String.length a = 4%nat -> b <> "" ->
       exists g, format_key_fingerprint (with_fpr b) = Some g /\ f = a +:+ " " +:+ g) /\
    String.length f = (String.length (fpr sk) + (String.length (fpr sk) - 1) / 4)%nat /\
    (occurs " " (fpr sk) = false -> without_blanks f = fpr sk).
Proof.
  intros H with_fpr. unfold format_key_fingerprint. rewrite H.
  eexists; split; [reflexivity|]. split; [|split; [|split]].
  - apply fingerprint_loop_short.
  - intros a b Hab Ha Hb. subst with_fpr. cbn [subkeys fpr].
    eexists; split; [reflexivity|]. rewrite Hab. apply fingerprint_loop_group; assumption.
  - rewrite length_fingerprint. cbn [Nat.add].
    replace ((0 - 1) / 4)%nat with 0%nat by reflexivity. lia.
  - intros Hb. apply without_blanks_fingerprint, Hb.
Qed.

Lemma format_key_fingerprint_groups_witness :
  format_key_fingerprint Samples.two_uids = Some "0123 4567 89AB CDEF 0123".
Proof.
  destruct (format_key_fingerprint_groups Samples.two_uids _ _ eq_refl)
    as (f & Hf & _ & Hg & _).
  destruct (Hg "0123" "456789ABCDEF0123" eq_refl eq_refl ltac:(discriminate))
    as (g & Hg' & Hfg).
  rewrite Hf, Hfg. vm_compute in Hg'. injection Hg' as <-. reflexivity.
Defined.

(** A key without a subkey has no fingerprint line to offer. *)
Lemma format_key_fingerprint_none key :
  subkeys key = [] -> format_key_fingerprint key = None.
Proof. intros H. unfold format_key_fingerprint. rewrite H. reflexivity. Qed.

(** *** The shape of a key block and of the index page *)

Lemma append_signatures_acc sigs :
  forall r, append_signatures r sigs = r +:+ append_signatures "" sigs.
Proof.
  induction sigs as [|g sigs IH]; intros r.
  - cbn [append_signatures]. symmetry. apply append_nil_r.
  - cbn [append_signatures]. rewrite (IH (r +:+ _)), (IH ("" +:+ _)).
    rewrite app_nil_l, !append_assoc. reflexivity.
Qed.

Lemma append_key_info_loop_acc key sk verbose fingerprints :
  forall fuel (is_first : bool) uid r,
    append_key_info_loop fuel key sk verbose fingerprints is_first uid r =
    r +:+ append_key_info_loop fuel key sk verbose fingerprints is_first uid "".
Proof.
  induction fuel as [|fuel IH]; intros is_first uid r.
  - cbn [append_key_info_loop]. symmetry. apply append_nil_r.
  - destruct uid as [|u next].
    + cbn [append_key_info_loop]. symmetry. apply append_nil_r.
    + cbn [append_key_info_loop].
      destruct is_first, (revoked key), fingerprints, verbose; cbn [negb orb];
        match goal with
        | |- append_key_info_loop _ _ _ _ _ _ _ ?x =
             _ +:+ append_key_info_loop _ _ _ _ _ _ _ ?y =>
            rewrite (IH _ _ x), (IH _ _ y)
        end;
        rewrite ?(append_signatures_acc _ (_ +:+ _)), ?app_nil_l, ?append_assoc;
        reflexivity.
Qed.

(** What a key adds does not depend on what is already in the response. *)
Lemma append_key_info_acc r key verbose fingerprints :
  append_key_info r key verbose fingerprints =
  r +:+ append_key_info "" key verbose fingerprints.
Proof.
  unfold append_key_info.
  destruct (subkeys key) as [|sk sks]; [symmetry; apply append_nil_r|].
  destruct (uids key) as [|u us]; [symmetry; apply append_nil_r|].
  apply append_key_info_loop_acc.
Qed.

Lemma concat_cons (x : string) (xs : list string) :
  String.concat "" (x :: xs) = x +:+ String.concat "" xs.
Proof. destruct xs; [symmetry; apply append_nil_r|reflexivity]. Qed.

Lemma keylist_loop_blocks search verbose fingerprints keys :
  forall r,
    keylist_loop search verbose fingerprints keys true r =
    (true,
     r +:+ String.concat ""
             (map (fun k => append_key_info "" k verbose fingerprints) keys)).
Proof.
  induction keys as [|k ks IH]; intros r.
  - cbn [keylist_loop map String.concat]. rewrite append_nil_r. reflexivity.
  - cbn [keylist_loop map negb]. rewrite IH, concat_cons.
    rewrite (append_key_info_acc r), append_assoc. reflexivity.
Qed.

(** X6: an index or vindex lookup that finds keys is answered with status
    200 and a page made of the header with the escaped search term, then
    for each key in the order of the listing the block [append_key_info]
    writes for that key alone, then the closing marker.  Fingerprint lines
    are written when the [fingerprint] argument is [on] in any case. *)
Theorem index_page_is_blocks ctx (msg : SoupMessage) (a : gmap string string)
    (verbose : bool) (search : string) (k : gpgme_key_t) (ks : list gpgme_key_t) :
  a !! "search" = Some search -> search <> "" ->
  gpgme_op_keylist_start ctx search = 0 ->
  gpgme_op_keylist_next ctx
    (if verbose then Z.lor GPGME_KEYLIST_MODE_LOCAL GPGME_KEYLIST_MODE_SIGS
     else GPGME_KEYLIST_MODE_LOCAL) search = k :: ks ->
  let fingerprints :=
    match a !! "fingerprint" with
    | Some t => g_ascii_strcasecmp t "on" =? 0
    | None => false
    end in
  let t := escape_html search in
  let page :=
    (if verbose then HKP_VINDEX_PREFIX t t else HKP_INDEX_PREFIX t t) +:+
    String.concat ""
      (map (fun k => append_key_info "" k verbose fingerprints) (k :: ks)) +:+
    HKP_INDEX_SUFFIX in
  lookup_handle_index ctx msg a verbose =
    (SOUP_STATUS_OK, soup_message_set_response msg "text/html" page (strlen page)).
Proof.
  intros Hs Hne Hstart Hkeys fingerprints t page.
  unfold lookup_handle_index. rewrite Hs.
  destruct search as [|c search]; [contradiction|].
  change (default "" (Some (String c search))) with (String c search).
  cbn [null_or_empty]. rewrite Hstart. cbn [Z.eqb negb]. rewrite Hkeys.
  cbn [keylist_loop negb]. fold fingerprints. fold t.
  rewrite keylist_loop_blocks. cbv zeta iota beta.
  rewrite (append_key_info_acc _ k), !append_assoc.
  subst page. cbn [map]. rewrite concat_cons, !append_assoc. reflexivity.
Qed.

Lemma index_page_is_blocks_witness :
  fst (lookup_handle_index (Examples.ctx_of [Samples.two_uids; Samples.no_uids] None)
         (request "GET") (Examples.query "vindex" "carol") true) = 200.
Proof.
  rewrite (index_page_is_blocks
             (Examples.ctx_of [Samples.two_uids; Samples.no_uids] None)
             (request "GET") (Examples.query "vindex" "carol") true "carol"
             Samples.two_uids [Samples.no_uids]
             eq_refl ltac:(discriminate) eq_refl eq_refl).
  reflexivity.
Defined.

Lemma append_key_info_unprintable key verbose fingerprints :
  unprintable key = true -> append_key_info "" key verbose fingerprints = "".
Proof.
  unfold unprintable, append_key_info.
  destruct (subkeys key); [reflexivity|]. destruct (uids key); [reflexivity|discriminate].
Qed.

(** X7: keys without a subkey or without a user id count as found but add
    nothing: when the listing hands out only such keys, the answer is
    status 200 and an index page with the header and the closing marker and
    no key line in between (not the error page for no match). *)
Theorem index_page_without_key_lines ctx (msg : SoupMessage) (a : gmap string string)
    (verbose : bool) (search : string) (k : gpgme_key_t) (ks : list gpgme_key_t) :
  a !! "search" = Some search -> search <> "" ->
  gpgme_op_keylist_start ctx search = 0 ->
  gpgme_op_keylist_next ctx
    (if verbose then Z.lor GPGME_KEYLIST_MODE_LOCAL GPGME_KEYLIST_MODE_SIGS
     else GPGME_KEYLIST_MODE_LOCAL) search = k :: ks ->
  forallb unprintable (k :: ks) = true ->
  let t := escape_html search in
  let page :=
    (if verbose then HKP_VINDEX_PREFIX t t else HKP_INDEX_PREFIX t t) +:+ HKP_INDEX_SUFFIX in
  lookup_handle_index ctx msg a verbose =
    (SOUP_STATUS_OK, soup_message_set_response msg "text/html" page (strlen page)).
Proof.
  intros Hs Hne Hstart Hkeys Hun t page.
  unfold lookup_handle_index. rewrite Hs.
  destruct search as [|c search]; [contradiction|].
  change (default "" (Some (String c search))) with (String c search).
  cbn [null_or_empty]. rewrite Hstart. cbn [Z.eqb negb]. rewrite Hkeys.
  cbn [keylist_loop negb]. fold t.
  rewrite keylist_loop_blocks. cbv zeta iota beta.
  cbn [forallb] in Hun. apply andb_prop in Hun as [Hk Hks].
  rewrite (append_key_info_acc _ k), (append_key_info_unprintable k) by exact Hk.
  assert (Hnone : forall f, String.concat ""
            (map (fun k => append_key_info "" k verbose f) ks) = "").
  { intros f. clear Hkeys. induction ks as [|k' ks IH]; [reflexivity|].
    cbn [forallb] in Hks. apply andb_prop in Hks as [Hk' Hks].
    cbn [map]. rewrite concat_cons, (append_key_info_unprintable k') by exact Hk'.
    rewrite app_nil_l. apply IH, Hks. }
  rewrite Hnone, !append_nil_r. reflexivity.
Qed.

Lemma index_page_without_key_lines_witness :
  response_body
    (snd (lookup_handle_index (Examples.ctx_of [Samples.no_uids] None) (request "GET")
            (Examples.query "index" "x") false)) =
  HKP_INDEX_PREFIX "x" "x" +:+ HKP_INDEX_SUFFIX.
Proof.
  rewrite (index_page_without_key_lines (Examples.ctx_of [Samples.no_uids] None)
             (request "GET") (Examples.query "index" "x") false "x" Samples.no_uids []
             eq_refl ltac:(discriminate) eq_refl eq_refl eq_refl).
  reflexivity.
Defined.




(** *** Status codes and bodies by route *)

(** X9: each handler has its own statuses.  The lookup handler answers 200
    exactly for a GET with at least one query argument, whatever the lookup
    finds, and 405 otherwise (another method, no argument table or an empty
    one); the add handler always answers 405, and the default handler
    always 404. *)
Theorem status_by_handler ctx (msg : SoupMessage) (args : option (gmap string string)) :
  let query := match args with Some a => negb (size a =? 0)%nat | None => false end in
  status_code (lookup_callback ctx msg args) =
    (if String.eqb (method msg) "GET" && query then 200 else 405) /\
  status_code (add_callback msg) = 405 /\
  status_code (default_callback msg) = 404.
Proof.
  intros query. split; [|split; reflexivity].
  unfold lookup_callback. cbn [method soup_message_headers_append].
  change SOUP_METHOD_GET with "GET".
  destruct (String.eqb (method msg) "GET") eqn:Em; cbn [negb andb];
    [|reflexivity].
  subst query. destruct args as [a|]; [|reflexivity].
  destruct (size a =? 0)%nat; cbn [negb]; [reflexivity|].
  set (msg' := soup_message_headers_append msg "Connection" "close").
  destruct (null_or_empty _); [reflexivity|].
  destruct (_ =? 0).
  { destruct (lookup_handle_index ctx _ a false) as [c m] eqn:E.
    cbn [status_code soup_message_set_status].
    change c with (fst (c, m)). rewrite <- E. apply lookup_handle_index_status. }
  destruct (_ =? 0).
  { destruct (lookup_handle_index ctx _ a true) as [c m] eqn:E.
    cbn [status_code soup_message_set_status].
    change c with (fst (c, m)). rewrite <- E. apply lookup_handle_index_status. }
  destruct (_ =? 0).
  { destruct (lookup_handle_get ctx _ a) as [c m] eqn:E.
    cbn [status_code soup_message_set_status].
    change c with (fst (c, m)). rewrite <- E. apply lookup_handle_get_status. }
  reflexivity.
Qed.

(** *** The case of [op] *)

Lemma g_ascii_tolower_idem c : g_ascii_tolower (g_ascii_tolower c) = g_ascii_tolower c.
Proof. destruct c as [[] [] [] [] [] [] [] []]; reflexivity. Qed.

Lemma g_ascii_tolower_zero c :
  (Z.of_nat (nat_of_ascii (g_ascii_tolower c)) =? 0) = (Z.of_nat (nat_of_ascii c) =? 0).
Proof. destruct c as [[] [] [] [] [] [] [] []]; reflexivity. Qed.

Lemma g_ascii_strcasecmp_lowered t :
  forall x, (g_ascii_strcasecmp (lowered t) x =? 0) = (g_ascii_strcasecmp t x =? 0).
Proof.
  induction t as [|c t IH]; intros x; [reflexivity|].
  destruct x as [|d x]; cbn [lowered g_ascii_strcasecmp].
  - apply g_ascii_tolower_zero.
  - rewrite g_ascii_tolower_idem. cbv zeta.
    destruct (Z.of_nat (nat_of_ascii (g_ascii_tolower c)) =?
              Z.of_nat (nat_of_ascii (g_ascii_tolower d))); [apply IH|reflexivity].
Qed.

Lemma null_or_empty_lowered t : null_or_empty (Some (lowered t)) = null_or_empty (Some t).
Proof. destruct t; reflexivity. Qed.

Lemma lookup_handle_index_ignores_op ctx msg (a : gmap string string) verbose t :
  lookup_handle_index ctx msg (<["op" := t]> a) verbose = lookup_handle_index ctx msg a verbose.
Proof.
  unfold lookup_handle_index.
  rewrite !(lookup_insert_ne a "op") by discriminate. reflexivity.
Qed.

Lemma lookup_handle_get_ignores_op ctx msg (a : gmap string string) t :
  lookup_handle_get ctx msg (<["op" := t]> a) = lookup_handle_get ctx msg a.
Proof.
  unfold lookup_handle_get.
  rewrite !(lookup_insert_ne a "op") by discriminate. reflexivity.
Qed.

(** X10: the operation is read without regard to ASCII case: lowering the
    capitals in the value of [op] changes nothing in the response. *)
Theorem lookup_op_any_case ctx (msg : SoupMessage) (a : gmap string string) (t : string) :
  a !! "op" = Some t ->
  lookup_callback ctx msg (Some (<["op" := lowered t]> a)) = lookup_callback ctx msg (Some a).
Proof.
  intros Hop. unfold lookup_callback.
  destruct (negb _); [reflexivity|].
  destruct (Nat.eqb_spec (size a) 0) as [E|_].
  { exfalso. apply (size_lookup_ne_0 a "op" t Hop E). }
  destruct (Nat.eqb_spec (size (<["op" := lowered t]> a)) 0) as [E|_].
  { exfalso. apply (size_lookup_ne_0 (<["op" := lowered t]> a) "op" (lowered t)); [|exact E].
    apply lookup_insert_eq. }
  rewrite lookup_insert_eq, Hop, null_or_empty_lowered.
  change (default "" (Some ?x)) with x.
  rewrite !g_ascii_strcasecmp_lowered.
  rewrite !lookup_handle_index_ignores_op, lookup_handle_get_ignores_op. reflexivity.
Qed.

Lemma lookup_op_any_case_witness :
  lookup_callback (Examples.ctx_of [Examples.alice_key 0 []] None) (request "GET")
    (Some (Examples.query "index" "alice")) =
  lookup_callback (Examples.ctx_of [Examples.alice_key 0 []] None) (request "GET")
    (Some (Examples.query "InDeX" "alice")).
Proof.
  rewrite <- (lookup_op_any_case (Examples.ctx_of [Examples.alice_key 0 []] None)
                (request "GET") (Examples.query "InDeX" "alice") "InDeX" eq_refl).
  reflexivity.
Defined.

End RenderFacts.

(** ** The index lookup without a match *)

Module IndexFacts.
Import Hkp CStrFacts HkpFacts Obs RenderFacts.

Lemma strlen_prefix_app a b : cstring a -> strlen_prefix (a +:+ b) = a +:+ strlen_prefix b.
Proof.
  unfold cstring. induction a as [|x a IH]; intros H; [rewrite !app_nil_l; reflexivity|].
  cbn [no_nul] in H. apply andb_prop in H as [Hx Ha].
  rewrite !app_cons. cbn [strlen_prefix].
  apply negb_true_iff in Hx. rewrite Hx, IH by exact Ha. reflexivity.
Qed.

(** The page of an index lookup that found keys. *)
Lemma lookup_handle_index_found ctx (msg : SoupMessage) (a : gmap string string)
    (verbose : bool) (search : string) (k : gpgme_key_t) (ks : list gpgme_key_t) :
  a !! "search" = Some search -> search <> "" ->
  gpgme_op_keylist_start ctx search = 0 ->
  gpgme_op_keylist_next ctx
    (if verbose then Z.lor GPGME_KEYLIST_MODE_LOCAL GPGME_KEYLIST_MODE_SIGS
     else GPGME_KEYLIST_MODE_LOCAL) search = k :: ks ->
  let fingerprints :=
    match a !! "fingerprint" with
    | Some t => g_ascii_strcasecmp t "on" =? 0
    | None => false
    end in
  let t := escape_html search in
  let page :=
    (if verbose then HKP_VINDEX_PREFIX t t else HKP_INDEX_PREFIX t t) +:+
    String.concat ""
      (map (fun k => append_key_info "" k verbose fingerprints) (k :: ks)) +:+
    HKP_INDEX_SUFFIX in
  lookup_handle_index ctx msg a verbose =
    (SOUP_STATUS_OK, soup_message_set_response msg "text/html" page (strlen page)).
Proof.
  intros Hs Hne Hstart Hkeys fingerprints t page.
  unfold lookup_handle_index. rewrite Hs.
  destruct search as [|c search]; [contradiction|].
  change (default "" (Some (String c search))) with (String c search).
  cbn [null_or_empty]. rewrite Hstart. cbn [Z.eqb negb]. rewrite Hkeys.
  cbn [keylist_loop negb]. fold fingerprints. fold t.
  rewrite keylist_loop_blocks. cbv zeta iota beta.
  rewrite (append_key_info_acc _ k), !append_assoc.
  subst page. cbn [map]. rewrite concat_cons, !append_assoc. reflexivity.
Qed.

(** The block of a key with a subkey and a user id opens with a key line. *)
Lemma append_key_info_pub key verbose fingerprints :
  unprintable key = false ->
  exists rest, append_key_info "" key verbose fingerprints = "pub " +:+ rest.
Proof.
  unfold unprintable, append_key_info.
  destruct (subkeys key) as [|sk sks]; [discriminate|].
  destruct (uids key) as [|u us]; [discriminate|]. intros _.
  generalize (List.length (u :: us)). intros n. cbn [append_key_info_loop].
  destruct (revoked key), fingerprints, verbose; cbn [negb orb andb];
    rewrite append_key_info_loop_acc; unfold HKP_INDEX_KEY_LINE;
    rewrite ?app_nil_l, ?(append_signatures_acc _ (_ +:+ _)), !append_assoc;
    eexists; reflexivity.
Qed.

Lemma blocks_pub verbose fingerprints keys :
  existsb (fun k => negb (unprintable k)) keys = true ->
  exists rest,
    String.concat "" (map (fun k => append_key_info "" k verbose fingerprints) keys) =
    "pub " +:+ rest.
Proof.
  induction keys as [|k ks IH]; [discriminate|].
  cbn [existsb map]. rewrite concat_cons.
  destruct (unprintable k) eqn:Ek; cbn [negb orb].
  - intros H. rewrite (append_key_info_unprintable k) by exact Ek.
    rewrite app_nil_l. apply IH, H.
  - intros _. destruct (append_key_info_pub k verbose fingerprints Ek) as [rest ->].
    rewrite append_assoc. eexists; reflexivity.
Qed.

(** C3: when the key listing of an index or vindex lookup hands out no key,
    the handler ends in an error page, never in an index page; with a
    non-empty search term and a listing that started, the answer is status
    200 and, byte for byte, the error page that says [No matching keys in
    database].  A page that opens with the index title is only ever made
    from a listing that handed out a key, and when one of the keys handed
    out has a subkey and a user id the page holds a key line: the header is
    followed at once by [pub ]. *)
Theorem index_without_match ctx (msg : SoupMessage) (a : gmap string string)
    (verbose : bool) :
  let mode := if verbose then Z.lor GPGME_KEYLIST_MODE_LOCAL GPGME_KEYLIST_MODE_SIGS
              else GPGME_KEYLIST_MODE_LOCAL in
  let search := default "" (a !! "search") in
  let keys := gpgme_op_keylist_next ctx mode search in
  let page := response_body (snd (lookup_handle_index ctx msg a verbose)) in
  let no_match :=
    "<title>Public Key Server -- Error</title><p>" +:+ crlf +:+
    "<h1>Public Key Server -- Error</h1><p>" +:+ crlf +:+
    "No matching keys in database" in
  let header :=
    "<title>Public Key Server -- Verbose Index ``" +:+ escape_html search +:+
    "''</title><p>" +:+
    "<h1>Public Key Server -- Verbose Index ``" +:+ escape_html search +:+
    "''</h1><p>" +:+
    (if verbose then "<pre>"
     else "<pre>Type bits /keyID    Date       User ID" +:+ crlf) in
  (keys = [] ->
   (exists d, lookup_handle_index ctx msg a verbose = lookup_handle_error msg d 0) /\
   (null_or_empty (a !! "search") = false ->
    gpgme_op_keylist_start ctx search = 0 ->
    fst (lookup_handle_index ctx msg a verbose) = 200 /\
    page = no_match /\
    (method msg = SOUP_METHOD_GET ->
     Spec.op_is a (if verbose then "vindex" else "index") = true ->
     let r := lookup_callback ctx msg (Some a) in
     status_code r = 200 /\ response_body r = no_match))) /\
  (String.prefix "<title>Public Key Server -- Verbose Index ``" page = true ->
   keys <> []) /\
  (null_or_empty (a !! "search") = false -> cstring search ->
   gpgme_op_keylist_start ctx search = 0 ->
   existsb (fun k => negb (unprintable k)) keys = true ->
   fst (lookup_handle_index ctx msg a verbose) = 200 /\
   exists rest, page = header +:+ "pub " +:+ rest).
Proof.
  intros mode search keys page no_match header.
  assert (Hnone : keys = [] ->
            lookup_handle_index ctx msg a verbose =
              lookup_handle_error msg
                (if null_or_empty (a !! "search")
                 then "pks request did not include a <b>search</b> property"
                 else if negb (gpgme_op_keylist_start ctx search =? 0)
                      then "Error retrieving key(s)"
                      else "No matching keys in database") 0).
  { intros Hk. unfold lookup_handle_index. fold search.
    destruct (null_or_empty (a !! "search")); [reflexivity|].
    destruct (negb _); [reflexivity|].
    fold mode. fold keys. rewrite Hk. reflexivity. }
  split; [|split].
  - intros Hk. split; [eexists; apply (Hnone Hk)|].
    intros Hsearch Hstart.
    assert (Hindex : lookup_handle_index ctx msg a verbose =
                     lookup_handle_error msg "No matching keys in database" 0).
    { rewrite (Hnone Hk), Hsearch, Hstart. reflexivity. }
    split; [rewrite Hindex; reflexivity|].
    split; [subst page; rewrite Hindex; reflexivity|].
    intros Hm Hop r.
    assert (Hsize : size a <> 0%nat).
    { destruct (a !! "search") as [v|] eqn:E; [|discriminate Hsearch].
      apply (size_lookup_ne_0 a "search" v E). }
    destruct (lookup_callback_with_args ctx msg a Hm Hsize) as [Hs Hb].
    split; [exact Hs|].
    subst r no_match. rewrite (Hb "No matching keys in database"); [reflexivity|].
    unfold Spec.lookup_error.
    assert (Herr : forall v, v = verbose ->
              Spec.index_error ctx a v = Some "No matching keys in database").
    { intros v ->. unfold Spec.index_error, Spec.search_error. rewrite Hsearch.
      fold search. rewrite Hstart. cbn [Z.eqb negb].
      replace (if verbose then 5 else 1) with mode by (destruct verbose; reflexivity).
      fold keys. rewrite Hk. reflexivity. }
    destruct verbose.
    + rewrite (op_is_not_empty a "vindex" _ _ eq_refl ltac:(discriminate) Hop).
      rewrite (op_is_exclusive a "v" "index" "i" "ndex"
                 ltac:(discriminate) ltac:(discriminate) ltac:(discriminate) Hop).
      rewrite Hop. apply Herr. reflexivity.
    + rewrite (op_is_not_empty a "index" _ _ eq_refl ltac:(discriminate) Hop).
      rewrite Hop. apply Herr. reflexivity.
  - intros Hpage Hk. subst page. rewrite (Hnone Hk) in Hpage.
    destruct (null_or_empty _); [discriminate Hpage|].
    destruct (negb _); discriminate Hpage.
  - intros Hsearch Hcs Hstart Hkeys.
    destruct (a !! "search") as [v|] eqn:E; [|discriminate Hsearch].
    change (default "" (Some v)) with v in search.
    assert (Hne : v <> "") by (intros ->; discriminate Hsearch).
    destruct keys as [|k ks] eqn:Ek; [discriminate Hkeys|].
    pose proof (lookup_handle_index_found ctx msg a verbose v k ks E Hne Hstart Ek)
      as Hfound.
    cbv zeta in Hfound. subst page. rewrite Hfound.
    split; [reflexivity|].
    cbn [snd soup_message_set_response response_body].
    rewrite substring_strlen.
    destruct (blocks_pub verbose
                match a !! "fingerprint" with
                | Some t => g_ascii_strcasecmp t "on" =? 0
                | None => false
                end (k :: ks) Hkeys) as [rest ->].
    rewrite append_assoc.
    assert (Hheader : (if verbose then HKP_VINDEX_PREFIX (escape_html v) (escape_html v)
                       else HKP_INDEX_PREFIX (escape_html v) (escape_html v)) = header).
    { subst header search. destruct verbose; reflexivity. }
    rewrite Hheader.
    assert (Hch : cstring header).
    { rewrite <- Hheader.
      destruct verbose; unfold HKP_VINDEX_PREFIX, HKP_INDEX_PREFIX; cstring_tac. }
    rewrite (strlen_prefix_app header _ Hch).
    exists (strlen_prefix (rest +:+ HKP_INDEX_SUFFIX)). reflexivity.
Qed.

Lemma index_without_match_witness :
  let r := lookup_callback (Examples.ctx_of [] None) (request "GET")
             (Some (Examples.query "vindex" "nobody")) in
  status_code r = 200 /\
  response_body r =
    "<title>Public Key Server -- Error</title><p>" +:+ crlf +:+
    "<h1>Public Key Server -- Error</h1><p>" +:+ crlf +:+
    "No matching keys in database".
Proof.
  destruct (index_without_match (Examples.ctx_of [] None) (request "GET")
              (Examples.query "vindex" "nobody") true) as [H _].
  destruct (H eq_refl) as [_ H']. destruct (H' eq_refl eq_refl) as (_ & _ & H'').
  apply H''; reflexivity.
Defined.

(** C3, as the specification words it, fails for a listing that hands out
    one key without user ids: the answer is status 200 and the index page,
    and the page holds no key line. *)
Lemma index_page_without_record :
  let r := lookup_callback (Examples.ctx_of [Samples.no_uids] None) (request "GET")
             (Some (Examples.query "index" "alice")) in
  ~ (status_code r = 200 ->
     String.prefix "<title>Public Key Server -- Verbose Index ``" (response_body r) = true ->
     contains "pub " (response_body r) = true).
Proof.
  intros r H. specialize (H eq_refl eq_refl). vm_compute in H. discriminate H.
Qed.

End IndexFacts.

(** ** Facts about starting and stopping the HKP server *)

Module ServerFacts.
Import Hkp.

Lemma started_is_running (A : start_answers) (s : server) :
  started (seahorse_hkp_server_start A s) = true ->
  seahorse_hkp_server_is_running (after_start (seahorse_hkp_server_start A s)) = true.
Proof.
  unfold seahorse_hkp_server_start.
  destruct s as [[h|] [c|]]; cbn [soup_server gpgme_ctx].
  - discriminate.
  - destruct (negb (gpgme_check_version A)); [discriminate|].
    destruct (negb (gpgme_engine_check_version A =? 0)); [discriminate|].
    destruct (negb (gpgme_new A =? 0)); [discriminate|].
    destruct (negb (gpgme_set_protocol A =? 0)); discriminate.
  - destruct (soup_server_new A _); [reflexivity|discriminate].
  - destruct (negb (gpgme_check_version A)); [discriminate|].
    destruct (negb (gpgme_engine_check_version A =? 0)); [discriminate|].
    destruct (negb (gpgme_new A =? 0)); [discriminate|].
    destruct (negb (gpgme_set_protocol A =? 0)); [discriminate|].
    destruct (soup_server_new A _); [reflexivity|discriminate].
Qed.

Lemma not_started_same_server (A : start_answers) (s : server) :
  started (seahorse_hkp_server_start A s) = false ->
  soup_server (after_start (seahorse_hkp_server_start A s)) = soup_server s.
Proof.
  unfold seahorse_hkp_server_start.
  destruct s as [[h|] [c|]]; cbn [soup_server gpgme_ctx].
  - reflexivity.
  - destruct (negb (gpgme_check_version A)); [reflexivity|].
    destruct (negb (gpgme_engine_check_version A =? 0)); [reflexivity|].
    destruct (negb (gpgme_new A =? 0)); [reflexivity|].
    destruct (negb (gpgme_set_protocol A =? 0)); reflexivity.
  - destruct (soup_server_new A _); [discriminate|reflexivity].
  - destruct (negb (gpgme_check_version A)); [reflexivity|].
    destruct (negb (gpgme_engine_check_version A =? 0)); [reflexivity|].
    destruct (negb (gpgme_new A =? 0)); [reflexivity|].
    destruct (negb (gpgme_set_protocol A =? 0)); [reflexivity|].
    destruct (soup_server_new A _); [discriminate|reflexivity].
Qed.

Lemma start_error_state (A : start_answers) (s : server) :
  err (seahorse_hkp_server_start A s) <> None ->
  started (seahorse_hkp_server_start A s) = false /\
  soup_server (after_start (seahorse_hkp_server_start A s)) = None /\
  gpgme_ctx (after_start (seahorse_hkp_server_start A s)) <> None.
Proof.
  unfold seahorse_hkp_server_start.
  destruct s as [[h|] [c|]]; cbn [soup_server gpgme_ctx].
  - intros H. exfalso. apply H. reflexivity.
  - destruct (negb (gpgme_check_version A)); [intros H; exfalso; apply H; reflexivity|].
    destruct (negb (gpgme_engine_check_version A =? 0));
      [intros H; exfalso; apply H; reflexivity|].
    destruct (negb (gpgme_new A =? 0)); [intros H; exfalso; apply H; reflexivity|].
    destruct (negb (gpgme_set_protocol A =? 0)); intros H; exfalso; apply H; reflexivity.
  - destruct (soup_server_new A _); [intros H; exfalso; apply H; reflexivity|].
    intros _. cbn. repeat split. discriminate.
  - destruct (negb (gpgme_check_version A)); [intros H; exfalso; apply H; reflexivity|].
    destruct (negb (gpgme_engine_check_version A =? 0));
      [intros H; exfalso; apply H; reflexivity|].
    destruct (negb (gpgme_new A =? 0)); [intros H; exfalso; apply H; reflexivity|].
    destruct (negb (gpgme_set_protocol A =? 0)); [intros H; exfalso; apply H; reflexivity|].
    destruct (soup_server_new A _); [intros H; exfalso; apply H; reflexivity|].
    intros _. cbn. repeat split. discriminate.
Qed.

(** X11: a running server has a GPGME context, and starting keeps it so:
    if the state before [seahorse_hkp_server_start] has a context whenever
    it has a server, so has the state after, and when the start returns
    [TRUE] the state after has both.  A context that is there is kept. *)
Theorem start_keeps_context (A : start_answers) (s : server) :
  (soup_server s <> None -> gpgme_ctx s <> None) ->
  let r := seahorse_hkp_server_start A s in
  (soup_server (after_start r) <> None -> gpgme_ctx (after_start r) <> None) /\
  (started r = true ->
   seahorse_hkp_server_is_running (after_start r) = true /\
   gpgme_ctx (after_start r) <> None) /\
  (forall c, gpgme_ctx s = Some c -> gpgme_ctx (after_start r) = Some c).
Proof.
  intros Hinv r. subst r. unfold seahorse_hkp_server_start.
  destruct s as [[h|] [c|]]; cbn [soup_server gpgme_ctx] in *.
  - repeat split; try discriminate. intros c' H. exact H.
  - exfalso. apply Hinv; [discriminate|reflexivity].
  - destruct (soup_server_new A _); cbn; repeat split; try discriminate; auto.
  - destruct (negb (gpgme_check_version A)); [cbn; repeat split; try discriminate; auto|].
    destruct (negb (gpgme_engine_check_version A =? 0));
      [cbn; repeat split; try discriminate; auto|].
    destruct (negb (gpgme_new A =? 0)); [cbn; repeat split; try discriminate; auto|].
    destruct (negb (gpgme_set_protocol A =? 0));
      [cbn; repeat split; try discriminate; auto|].
    destruct (soup_server_new A _); cbn; repeat split; try discriminate; auto.
Qed.

Lemma start_keeps_context_witness :
  seahorse_hkp_server_is_running
    (after_start (seahorse_hkp_server_start Samples.start_ok Samples.stopped_server)) = true.
Proof.
  destruct (start_keeps_context Samples.start_ok Samples.stopped_server
              ltac:(intros H; exfalso; apply H; reflexivity)) as (_ & H & _).
  apply H. reflexivity.
Defined.

(** X12: at most one server.  Once a start has returned [TRUE], another
    start returns [FALSE], stores no error and leaves both handles as they
    are; stopping then releases exactly the server and the context of the
    first start and leaves neither. *)
Theorem start_once_then_stop (A1 A2 : start_answers) (s : server) :
  let r1 := seahorse_hkp_server_start A1 s in
  started r1 = true ->
  let r2 := seahorse_hkp_server_start A2 (after_start r1) in
  started r2 = false /\ err r2 = None /\ after_start r2 = after_start r1 /\
  exists h c,
    after_start r1 = {| soup_server := Some h; gpgme_ctx := Some c |} /\
    seahorse_hkp_server_stop (after_start r1) =
      ({| soup_server := None; gpgme_ctx := None |}, [g_object_unref h; gpgme_release c]).
Proof.
  intros r1 H r2. subst r1 r2. revert H. unfold seahorse_hkp_server_start.
  destruct s as [[h|] [c|]]; cbn [soup_server gpgme_ctx].
  - discriminate.
  - destruct (negb (gpgme_check_version A1)); [discriminate|].
    destruct (negb (gpgme_engine_check_version A1 =? 0)); [discriminate|].
    destruct (negb (gpgme_new A1 =? 0)); [discriminate|].
    destruct (negb (gpgme_set_protocol A1 =? 0)); discriminate.
  - destruct (soup_server_new A1 _) as [h|]; [|discriminate]. intros _.
    cbn. repeat split. exists h, c. split; reflexivity.
  - destruct (negb (gpgme_check_version A1)); [discriminate|].
    destruct (negb (gpgme_engine_check_version A1 =? 0)); [discriminate|].
    destruct (negb (gpgme_new A1 =? 0)); [discriminate|].
    destruct (negb (gpgme_set_protocol A1 =? 0)); [discriminate|].
    destruct (soup_server_new A1 _) as [h|]; [|discriminate]. intros _.
    cbn. repeat split. exists h, (gpgme_new_ctx A1). split; reflexivity.
Qed.

Lemma start_once_then_stop_witness :
  started (seahorse_hkp_server_start Samples.start_ok
             (after_start (seahorse_hkp_server_start Samples.start_ok
                             Samples.stopped_server))) = false.
Proof.
  destruct (start_once_then_stop Samples.start_ok Samples.start_ok Samples.stopped_server
              eq_refl) as (H & _).
  exact H.
Defined.

(** X13: a start that fails stores an error only when the socket could not
    be made, then with [errno] and its text; it leaves no server behind,
    but the GPGME context made on the way stays.  A start that fails in
    GPGME, or because a server is there already, stores none. *)
Theorem start_failure_report (A : start_answers) (s : server) :
  let r := seahorse_hkp_server_start A s in
  started r = false ->
  soup_server (after_start r) = soup_server s /\
  (err r <> None ->
   err r = Some {| code := errno A; message := Some (g_strerror A (errno A)) |} /\
   soup_server_new A SOUP_ADDRESS_ANY_PORT = None /\
   soup_server (after_start r) = None /\
   gpgme_ctx (after_start r) <> None) /\
  (err r = None -> logged r <> []).
Proof.
  intros r. subst r. unfold seahorse_hkp_server_start.
  change (if negb (HKP_FIXED_PORT =? 0) then HKP_FIXED_PORT else SOUP_ADDRESS_ANY_PORT)
    with SOUP_ADDRESS_ANY_PORT.
  change (if 0 <? HKP_FIXED_PORT then HKP_FIXED_PORT else SOUP_ADDRESS_ANY_PORT)
    with SOUP_ADDRESS_ANY_PORT.
  destruct s as [[h|] [c|]]; cbn [soup_server gpgme_ctx].
  - intros _. cbn. repeat split; intros; congruence.
  - destruct (negb (gpgme_check_version A));
      [intros _; cbn; repeat split; intros; congruence|].
    destruct (negb (gpgme_engine_check_version A =? 0));
      [intros _; cbn; repeat split; intros; congruence|].
    destruct (negb (gpgme_new A =? 0));
      [intros _; cbn; repeat split; intros; congruence|].
    destruct (negb (gpgme_set_protocol A =? 0));
      intros _; cbn; repeat split; intros; congruence.
  - destruct (soup_server_new A SOUP_ADDRESS_ANY_PORT) as [h|] eqn:E; [discriminate|].
    intros _. cbn. repeat split; intros; congruence.
  - destruct (negb (gpgme_check_version A));
      [intros _; cbn; repeat split; intros; congruence|].
    destruct (negb (gpgme_engine_check_version A =? 0));
      [intros _; cbn; repeat split; intros; congruence|].
    destruct (negb (gpgme_new A =? 0));
      [intros _; cbn; repeat split; intros; congruence|].
    destruct (negb (gpgme_set_protocol A =? 0));
      [intros _; cbn; repeat split; intros; congruence|].
    destruct (soup_server_new A SOUP_ADDRESS_ANY_PORT) as [h|] eqn:E; [discriminate|].
    intros _. cbn. repeat split; intros; congruence.
Qed.

Lemma start_failure_report_witness :
  err (seahorse_hkp_server_start Samples.start_no_socket Samples.stopped_server) =
  Some {| code := 98; message := Some "Address already in use" |}.
Proof.
  destruct (start_failure_report Samples.start_no_socket Samples.stopped_server eq_refl)
    as (_ & H & _).
  destruct (H ltac:(discriminate)) as (He & _). exact He.
Defined.

End ServerFacts.

(** ** More facts about the publisher *)

Module PublisherFacts.
Import Sharing SharingFacts Obs.

(** [run], with the functions around [start_sharing] and the server. *)
Ltac run_all :=
  cbv [start_sharing handle_error seahorse_sharing_init seahorse_sharing_cleanup
       services_callback client_callback client_state_changed dns_sd_get_poll stop_sharing
       add_service calc_share_name stop_publishing
       bind ret get g_assert emit emit_all when when_some
       set_avahi_group set_avahi_client set_avahi_poll set_share_name set_share_alternate
       set_hkp avahi_group avahi_client avahi_poll share_name share_alternate hkp trace
       Hkp.seahorse_hkp_server_is_running Hkp.seahorse_hkp_server_stop
       Hkp.soup_server Hkp.gpgme_ctx
       default from_option id negb];
  cbn [map app];
  cbv [emit_all bind ret emit trace avahi_group avahi_client avahi_poll share_name
       share_alternate hkp].

(** X14: on a failure of the entry group the callback logs it, frees the
    group and the client it holds, clears the share name and shows the
    error dialog; it does not start anything again, and it leaves the
    collision counter, the poll and the HKP server alone. *)
Theorem group_failure_tears_down G (group : positive) (A : avahi) (w : world) :
  avahi_group w = None \/ avahi_group w = Some group ->
  exists w',
    services_callback G group AVAHI_ENTRY_GROUP_FAILURE A w = Some (tt, w') /\
    avahi_group w' = None /\ avahi_client w' = None /\ share_name w' = None /\
    avahi_poll w' = avahi_poll w /\ share_alternate w' = share_alternate w /\
    hkp w' = hkp w /\
    trace w' =
      (trace w ++
       [g_warning "avahi entry group failure: %s"
          (arg_avahi_strerror (avahi_client_errno A))] ++
       option_list (avahi_entry_group_free <$> avahi_group w) ++
       option_list (avahi_client_free <$> avahi_client w) ++
       [dialog])%list.
Proof.
  intros Hg.
  assert (Hassert : match avahi_group w with
                    | None => true
                    | Some g' => Pos.eqb group g'
                    end = true).
  { destruct Hg as [-> | ->]; [reflexivity|apply Pos.eqb_refl]. }
  clear Hg. destruct w as [g c p n alt s tr].
  cbn [avahi_group avahi_client avahi_poll share_name share_alternate hkp trace] in *.
  run. rewrite Hassert.
  destruct g, c; eexists; (split; [reflexivity|]);
    cbn [trace avahi_group avahi_client avahi_poll share_name share_alternate hkp
         option_list fmap option_fmap option_map app];
    repeat split; rewrite <- ?app_assoc; reflexivity.
Qed.

Lemma group_failure_tears_down_witness :
  exists w',
    services_callback Examples.glib_alice 4 AVAHI_ENTRY_GROUP_FAILURE Examples.avahi_ok
      Examples.published = Some (tt, w') /\
    avahi_client w' = None.
Proof.
  destruct (group_failure_tears_down Examples.glib_alice 4 Examples.avahi_ok
              Examples.published (or_intror eq_refl))
    as (w' & Hrun & _ & Hc & _).
  exists w'. split; assumption.
Defined.

(** X15: when the client reports that it runs, the callback makes an entry
    group unless there is one, adds the service record with the current
    share name, the HKP service type and the port of the HKP server, and
    commits.  If Avahi takes all of it, nothing else changes; if the group
    cannot be made or Avahi refuses the record or the commit, the callback
    frees what it holds, clears the share name and shows the error
    dialog. *)
Theorem client_running_registers G (client : positive) (A : avahi) (w : world) :
  avahi_client w = None \/ avahi_client w = Some client ->
  let group :=
    match avahi_group w with Some g => Some g | None => avahi_entry_group_new_r A end in
  let made :=
    match avahi_group w with Some _ => [] | None => [avahi_entry_group_new client] end in
  let record :=
    avahi_entry_group_add_service group (share_name w) HKP_SERVICE_TYPE
      (Hkp.seahorse_hkp_server_get_port (soup_server_get_port G) (hkp w)) in
  exists w',
    client_callback G client AVAHI_CLIENT_S_RUNNING A w = Some (tt, w') /\
    (group <> None -> Spec.registered A = true ->
     w' = {| avahi_group := group; avahi_client := avahi_client w;
             avahi_poll := avahi_poll w; share_name := share_name w;
             share_alternate := share_alternate w; hkp := hkp w;
             trace := (trace w ++ made ++ [record; avahi_entry_group_commit group])%list |}) /\
    (group = None \/ Spec.registered A = false ->
     avahi_group w' = None /\ avahi_client w' = None /\ share_name w' = None /\
     exists rest, trace w' = (trace w ++ made ++ rest)%list /\ In dialog rest).
Proof.
  intros Hc group made record.
  assert (Hassert : match avahi_client w with
                    | None => true
                    | Some c' => Pos.eqb client c'
                    end = true).
  { destruct Hc as [-> | ->]; [reflexivity|apply Pos.eqb_refl]. }
  clear Hc. subst group made record. unfold Spec.registered.
  destruct w as [g c p n alt s tr].
  cbn [avahi_group avahi_client avahi_poll share_name share_alternate hkp trace] in *.
  run. rewrite Hassert.
  destruct g as [g|]; [|destruct (avahi_entry_group_new_r A) as [g|]].
  - destruct (0 <=? avahi_entry_group_add_service_r A) eqn:Ea.
    + destruct (avahi_entry_group_commit_r A <? 0) eqn:Ec.
      * assert (Hc : (0 <=? avahi_entry_group_commit_r A) = false)
          by (apply Z.leb_gt; apply Z.ltb_lt in Ec; exact Ec).
        rewrite Hc. destruct c; eexists; (split; [reflexivity|]);
          (split; [intros _ H; discriminate H|]); intros _;
          cbn [trace avahi_group avahi_client share_name app]; repeat split;
          eexists; (split; [rewrite <- !app_assoc; reflexivity|]); cbn; auto 10.
      * assert (Hc : (0 <=? avahi_entry_group_commit_r A) = true)
          by (apply Z.leb_le; apply Z.ltb_ge in Ec; exact Ec).
        rewrite Hc. eexists; (split; [reflexivity|]).
        split; [intros _ _; cbn [app]; rewrite <- !app_assoc; reflexivity|].
        intros [H|H]; discriminate H.
    + assert (Hn : (avahi_entry_group_add_service_r A <? 0) = true)
        by (apply Z.ltb_lt; apply Z.leb_gt in Ea; exact Ea).
      rewrite Hn. destruct c; eexists; (split; [reflexivity|]);
        (split; [intros _ H; discriminate H|]); intros _;
        cbn [trace avahi_group avahi_client share_name app]; repeat split;
        eexists; (split; [rewrite <- !app_assoc; reflexivity|]); cbn; auto 10.
  - destruct (0 <=? avahi_entry_group_add_service_r A) eqn:Ea.
    + destruct (avahi_entry_group_commit_r A <? 0) eqn:Ec.
      * assert (Hc : (0 <=? avahi_entry_group_commit_r A) = false)
          by (apply Z.leb_gt; apply Z.ltb_lt in Ec; exact Ec).
        rewrite Hc. destruct c; eexists; (split; [reflexivity|]);
          (split; [intros _ H; discriminate H|]); intros _;
          cbn [trace avahi_group avahi_client share_name app]; repeat split;
          eexists; (split; [rewrite <- !app_assoc; reflexivity|]); cbn; auto 10.
      * assert (Hc : (0 <=? avahi_entry_group_commit_r A) = true)
          by (apply Z.leb_le; apply Z.ltb_ge in Ec; exact Ec).
        rewrite Hc. eexists; (split; [reflexivity|]).
        split; [intros _ _; cbn [app]; rewrite <- !app_assoc; reflexivity|].
        intros [H|H]; discriminate H.
    + assert (Hn : (avahi_entry_group_add_service_r A <? 0) = true)
        by (apply Z.ltb_lt; apply Z.leb_gt in Ea; exact Ea).
      rewrite Hn. destruct c; eexists; (split; [reflexivity|]);
        (split; [intros _ H; discriminate H|]); intros _;
        cbn [trace avahi_group avahi_client share_name app]; repeat split;
        eexists; (split; [rewrite <- !app_assoc; reflexivity|]); cbn; auto 10.
  - destruct c; eexists; (split; [reflexivity|]);
      (split; [intros H; contradiction|]); intros _;
      cbn [trace avahi_group avahi_client share_name app]; repeat split;
      eexists; (split; [rewrite <- !app_assoc; reflexivity|]); cbn; auto 10.
Qed.

Lemma client_running_registers_witness :
  exists w',
    client_callback Examples.glib_alice 3 AVAHI_CLIENT_S_RUNNING Examples.avahi_ok
      Examples.published = Some (tt, w') /\
    avahi_group w' = Some 4%positive.
Proof.
  destruct (client_running_registers Examples.glib_alice 3 Examples.avahi_ok
              Examples.published (or_intror eq_refl))
    as (w' & Hrun & Hok & _).
  exists w'. split; [exact Hrun|].
  rewrite (Hok ltac:(discriminate) eq_refl). reflexivity.
Defined.

(** X16: a collision of the client followed by its running again puts the
    same record back: the first callback resets the entry group, the second
    adds the service under the same group with the same share name and
    port and commits; no group is made, and when Avahi takes the record
    nothing but the list of effects differs from before. *)
Theorem client_collision_then_running G (client group : positive) (A1 A2 : avahi)
    (w : world) :
  avahi_client w = Some client -> avahi_group w = Some group ->
  Spec.registered A2 = true ->
  exists w1,
    client_callback G client AVAHI_CLIENT_S_COLLISION A1 w = Some (tt, w1) /\
    client_callback G client AVAHI_CLIENT_S_RUNNING A2 w1 =
      Some (tt, {| avahi_group := avahi_group w; avahi_client := avahi_client w;
                   avahi_poll := avahi_poll w; share_name := share_name w;
                   share_alternate := share_alternate w; hkp := hkp w;
                   trace :=
                     (trace w ++
                      [avahi_entry_group_reset group;
                       avahi_entry_group_add_service (Some group) (share_name w)
                         HKP_SERVICE_TYPE
                         (Hkp.seahorse_hkp_server_get_port (soup_server_get_port G) (hkp w));
                       avahi_entry_group_commit (Some group)])%list |}).
Proof.
  intros Hc Hg Hreg. unfold Spec.registered in Hreg.
  apply andb_prop in Hreg as [Ha Hcm].
  assert (Hcn : (avahi_entry_group_commit_r A2 <? 0) = false).
  { apply Z.ltb_ge. apply Z.leb_le in Hcm. exact Hcm. }
  destruct w as [g c p n alt s tr].
  cbn [avahi_group avahi_client avahi_poll share_name share_alternate hkp trace] in *.
  subst g c. run. rewrite Pos.eqb_refl. eexists. split; [reflexivity|].
  run. rewrite Pos.eqb_refl, Ha, Hcn. rewrite <- !app_assoc. reflexivity.
Qed.

Lemma client_collision_then_running_witness :
  exists w1 w2,
    client_callback Examples.glib_alice 3 AVAHI_CLIENT_S_COLLISION Examples.avahi_ok
      Examples.published = Some (tt, w1) /\
    client_callback Examples.glib_alice 3 AVAHI_CLIENT_S_RUNNING Examples.avahi_ok w1 =
      Some (tt, w2) /\
    share_name w2 = Some "Alice's encryption keys".
Proof.
  destruct (client_collision_then_running Examples.glib_alice 3 4 Examples.avahi_ok
              Examples.avahi_ok Examples.published eq_refl eq_refl eq_refl)
    as (w1 & H1 & H2).
  exists w1. eexists. split; [exact H1|]. split; [exact H2|]. reflexivity.
Defined.

(** *** The share name *)

Lemma fmt_d_inj n m : fmt_d n = fmt_d m -> n = m.
Proof.
  unfold fmt_d. intros H. apply DecimalZ.to_int_inj.
  assert (Hnil : forall z, Z.to_int z <> Decimal.Pos Decimal.Nil /\
                           Z.to_int z <> Decimal.Neg Decimal.Nil).
  { intros [|p|p]; cbn; split; try discriminate;
      intros [= E]; apply (DecimalPos.Unsigned.to_uint_nonnil p E). }
  assert (Hsome : Some (Z.to_int n) = Some (Z.to_int m)).
  { rewrite <- (NilZero.isi (Z.to_int n)) by apply Hnil.
    rewrite <- (NilZero.isi (Z.to_int m)) by apply Hnil.
    rewrite H. reflexivity. }
  injection Hsome as E. exact E.
Qed.

Lemma app_inv_head (a b c : string) : a +:+ b = a +:+ c -> b = c.
Proof.
  induction a as [|x a IH]; [intros H; exact H|].
  change (String x (a +:+ b) = String x (a +:+ c) -> b = c).
  intros [= H]. apply IH, H.
Qed.

Lemma app_not_self (a b : string) : b <> "" -> a <> a +:+ b.
Proof.
  intros Hb H. apply Hb. apply (app_inv_head a). rewrite <- H.
  symmetry. apply HkpFacts.append_nil_r.
Qed.

(** X17: [calc_share_name] gives different names for different values of
    the collision counter, so no name is tried twice while the counter
    goes up. *)
Theorem share_names_differ G (w1 w2 : world) :
  share_alternate w1 <> share_alternate w2 ->
  exists v1 v2 n1 n2,
    calc_share_name G w1 = Some (tt, v1) /\ share_name v1 = Some n1 /\
    calc_share_name G w2 = Some (tt, v2) /\ share_name v2 = Some n2 /\
    n1 <> n2.
Proof.
  intros Hne. destruct w1 as [g1 c1 p1 s1 k1 h1 t1], w2 as [g2 c2 p2 s2 k2 h2 t2].
  cbn [share_alternate] in Hne. run. fold (Spec.base_name G).
  destruct (Z.eqb_spec k1 0) as [E1|E1]; destruct (Z.eqb_spec k2 0) as [E2|E2];
    cbn [negb]; do 4 eexists;
    (split; [reflexivity|]); (split; [reflexivity|]);
    (split; [reflexivity|]); (split; [reflexivity|]).
  - congruence.
  - apply app_not_self. discriminate.
  - intros H. symmetry in H. revert H. apply app_not_self. discriminate.
  - intros H. apply app_inv_head in H. injection H as H. apply fmt_d_inj in H.
    contradiction.
Qed.

Lemma share_names_differ_witness :
  exists n1 n2,
    n1 = "Alice's encryption keys" /\ n2 = "Alice's encryption keys #3" /\ n1 <> n2.
Proof.
  destruct (share_names_differ Examples.glib_alice Examples.published
              {| avahi_group := None; avahi_client := None; avahi_poll := None;
                 share_name := None; share_alternate := 3;
                 hkp := Samples.stopped_server; trace := [] |}
              ltac:(discriminate))
    as (v1 & v2 & n1 & n2 & H1 & Hn1 & H2 & Hn2 & Hne).
  exists n1, n2.
  vm_compute in H1. injection H1 as <-.
  vm_compute in H2. injection H2 as <-.
  cbn in Hn1, Hn2. injection Hn1 as <-. injection Hn2 as <-.
  repeat split. exact Hne.
Defined.

(** *** Starting and stopping the sharing *)

(** X18: [start_sharing] does nothing while the HKP server runs.  When the
    server does not run, starts, and Avahi gives a client, the server runs
    from then on, and Avahi is asked for the client with the counter at 0
    and the share name set to the base name, after the poll has been made
    if there was none.  When Avahi does not run the callback inside
    [avahi_client_new], nothing else happens: the client is the new one and
    no dialog is shown.  When it does, the callback handles the reported
    state before the client is assigned. *)
Theorem start_sharing_starts G (S : Hkp.start_answers) (A : avahi) (w : world) :
  (Hkp.seahorse_hkp_server_is_running (hkp w) = true ->
   start_sharing G S A w = Some (tt, w)) /\
  (forall c,
     Hkp.seahorse_hkp_server_is_running (hkp w) = false ->
     Hkp.started (Hkp.seahorse_hkp_server_start S (hkp w)) = true ->
     avahi_client_new_r A = Some c ->
     let poll :=
       match avahi_poll w with Some p => Some p | None => avahi_glib_poll_new_r A end in
     let asked client :=
       {| avahi_group := avahi_group w; avahi_client := client; avahi_poll := poll;
          share_name := Some (Spec.base_name G); share_alternate := 0;
          hkp := Hkp.after_start (Hkp.seahorse_hkp_server_start S (hkp w));
          trace :=
            (trace w ++
             match avahi_poll w with
             | Some _ => []
             | None =>
                 avahi_glib_poll_new ::
                 match avahi_glib_poll_new_r A with
                 | Some _ => []
                 | None =>
                     [g_warning "couldn't initialize avahi glib poll integration" no_arg]
                 end
             end ++ [avahi_client_new poll])%list |} in
     Hkp.seahorse_hkp_server_is_running
       (Hkp.after_start (Hkp.seahorse_hkp_server_start S (hkp w))) = true /\
     start_sharing G S A w =
       match avahi_client_new_calls A with
       | None => Some (tt, asked (Some c))
       | Some (state, inside) =>
           (client_callback G c state inside ;; set_avahi_client (Some c))
             (asked (avahi_client w))
       end).
Proof.
  split.
  - intros Hr. destruct w as [g c p n alt s tr]. cbn [hkp] in Hr.
    unfold start_sharing, bind, get, when. cbn [hkp]. rewrite Hr. reflexivity.
  - intros c Hr Hs Hc poll asked. subst poll asked.
    pose proof (ServerFacts.started_is_running S (hkp w) Hs) as Hrunning.
    split; [exact Hrunning|].
    destruct w as [g c0 p n alt s tr]. cbn [hkp avahi_poll avahi_group trace] in *.
    unfold start_sharing, bind, get, when. cbn [hkp]. rewrite Hr. cbn [negb].
    unfold set_hkp. rewrite Hs. cbn [negb].
    cbn [avahi_group avahi_client avahi_poll share_name share_alternate hkp trace].
    match goal with
    | |- context [start_publishing G A ?w0] =>
        pose proof (start_publishing_asks G A w0) as H
    end.
    cbv zeta in H.
    cbn [avahi_group avahi_client avahi_poll share_name share_alternate hkp trace] in H.
    rewrite H, Hc. clear H.
    destruct (avahi_client_new_calls A) as [[st inside]|]; [|reflexivity].
    unfold bind, ret, set_avahi_client.
    match goal with
    | |- context [client_callback G c st inside ?w0] =>
        destruct (client_callback G c st inside w0) as [[[] w2]|]
    end; reflexivity.
Qed.

Lemma start_sharing_starts_witness :
  start_sharing Examples.glib_alice Samples.start_ok Examples.avahi_running_at_once
    Samples.idle =
  Some (tt,
        {| avahi_group := Some 7%positive; avahi_client := Some 9%positive;
           avahi_poll := Some 5%positive;
           share_name := Some "Alice's encryption keys"; share_alternate := 0;
           hkp := Hkp.after_start
                    (Hkp.seahorse_hkp_server_start Samples.start_ok Samples.stopped_server);
           trace :=
             [avahi_glib_poll_new; avahi_client_new (Some 5%positive);
              avahi_entry_group_new 9;
              avahi_entry_group_add_service (Some 7%positive)
                (Some "Alice's encryption keys") "_pgpkey-hkp._tcp." 40123;
              avahi_entry_group_commit (Some 7%positive)] |}).
Proof.
  destruct (start_sharing_starts Examples.glib_alice Samples.start_ok
              Examples.avahi_running_at_once Samples.idle) as [_ H].
  destruct (H 9%positive eq_refl eq_refl eq_refl) as [_ Hrun].
  rewrite Hrun. vm_compute. reflexivity.
Defined.

(** X19: a [start_sharing] that fails leaves no server running.  When the
    server does not start, its handles are what the start left, nothing of
    the publisher is touched, and a dialog is shown exactly when the start
    stored an error, with the text of that error.  When the server starts
    but Avahi gives no client, the server is stopped again and both its
    handles are released, the publisher holds nothing, and the dialog for
    the publishing is shown. *)
Theorem start_sharing_fails G (S : Hkp.start_answers) (A : avahi) (w : world) :
  Hkp.seahorse_hkp_server_is_running (hkp w) = false ->
  let r := Hkp.seahorse_hkp_server_start S (hkp w) in
  (Hkp.started r = false ->
   start_sharing G S A w =
     Some (tt, {| avahi_group := avahi_group w; avahi_client := avahi_client w;
                  avahi_poll := avahi_poll w; share_name := share_name w;
                  share_alternate := share_alternate w; hkp := Hkp.after_start r;
                  trace :=
                    (trace w ++
                     match Hkp.err r with
                     | Some e =>
                         [show_error "Couldn't share keys" (default "" (Hkp.message e))]
                     | None => []
                     end)%list |}) /\
   Hkp.seahorse_hkp_server_is_running (Hkp.after_start r) = false) /\
  (Hkp.started r = true -> avahi_client_new_r A = None ->
   exists w' rest,
     start_sharing G S A w = Some (tt, w') /\
     Hkp.soup_server (hkp w') = None /\ Hkp.gpgme_ctx (hkp w') = None /\
     avahi_group w' = None /\ avahi_client w' = None /\ share_name w' = None /\
     trace w' = (trace w ++ rest)%list /\ In dialog rest).
Proof.
  intros Hr r. split.
  - intros Hs. split.
    + destruct w as [g c p n alt s tr]. cbn [hkp] in *.
      unfold start_sharing, bind, get, when. cbn [hkp]. rewrite Hr. cbn [negb].
      unfold set_hkp. fold r. rewrite Hs. cbn [negb].
      unfold handle_error. destruct (Hkp.err r); unfold emit, ret;
        cbn [avahi_group avahi_client avahi_poll share_name share_alternate hkp trace];
        rewrite ?app_nil_r; reflexivity.
    + unfold Hkp.seahorse_hkp_server_is_running in *.
      subst r. rewrite (ServerFacts.not_started_same_server S (hkp w) Hs). exact Hr.
  - intros Hs Hc.
    pose proof (ServerFacts.started_is_running S (hkp w) Hs) as Hrunning. fold r in Hrunning.
    destruct w as [g c p n alt s tr]. cbn [hkp] in *.
    unfold start_sharing, bind, get, when. cbn [hkp]. rewrite Hr. cbn [negb].
    unfold set_hkp. fold r. rewrite Hs. cbn [negb].
    cbn [avahi_group avahi_client avahi_poll share_name share_alternate hkp trace].
    match goal with
    | |- context [start_publishing G A ?w0] =>
        pose proof (start_publishing_asks G A w0) as H
    end.
    cbv zeta in H.
    cbn [avahi_group avahi_client avahi_poll share_name share_alternate hkp trace] in H.
    rewrite H, Hc. clear H. cbn [negb].
    unfold Hkp.seahorse_hkp_server_is_running in Hrunning.
    destruct (Hkp.after_start r) as [[h|] [x|]]; cbn [Hkp.soup_server] in Hrunning;
      try discriminate Hrunning;
      (destruct p as [p|]; [|destruct (avahi_glib_poll_new_r A) as [p|]]);
      destruct g;
      cbn [avahi_group avahi_client avahi_poll share_name share_alternate hkp trace negb];
      run_all;
      eexists; eexists; (split; [reflexivity|]);
      cbn [avahi_group avahi_client avahi_poll share_name share_alternate hkp trace
           Hkp.soup_server Hkp.gpgme_ctx];
      repeat split; try (rewrite <- ?app_assoc; reflexivity);
      unfold dialog; cbn; auto 12.
Qed.

Lemma start_sharing_fails_witness :
  exists w',
    start_sharing Examples.glib_alice Samples.start_no_socket Examples.avahi_ok Samples.idle =
      Some (tt, w') /\
    trace w' = [show_error "Couldn't share keys" "Address already in use"].
Proof.
  destruct (start_sharing_fails Examples.glib_alice Samples.start_no_socket
              Examples.avahi_ok Samples.idle eq_refl) as [H _].
  destruct (H eq_refl) as [Hrun _].
  eexists. split; [exact Hrun|reflexivity].
Defined.

(** X20: whatever the state, [stop_sharing] frees the group and the client
    that are held and clears the share name, without a dialog, and leaves
    no HKP server; the GPGME context is released with the server, and is
    left as it is when no server runs. *)
Theorem stop_sharing_releases (w : world) :
  exists w',
    stop_sharing w = Some (tt, w') /\
    avahi_group w' = None /\ avahi_client w' = None /\ share_name w' = None /\
    Hkp.soup_server (hkp w') = None /\
    Hkp.gpgme_ctx (hkp w') =
      (if Hkp.seahorse_hkp_server_is_running (hkp w) then None
       else Hkp.gpgme_ctx (hkp w)) /\
    avahi_poll w' = avahi_poll w /\ share_alternate w' = share_alternate w /\
    trace w' =
      (trace w ++
       option_list (avahi_entry_group_free <$> avahi_group w) ++
       option_list (avahi_client_free <$> avahi_client w) ++
       (if Hkp.seahorse_hkp_server_is_running (hkp w)
        then map hkp_server (snd (Hkp.seahorse_hkp_server_stop (hkp w)))
        else []))%list.
Proof.
  destruct w as [[g|] [c|] p n alt [[h|] [x|]] tr]; run_all;
    eexists; (split; [reflexivity|]);
    cbn [avahi_group avahi_client avahi_poll share_name share_alternate hkp trace
         Hkp.soup_server Hkp.gpgme_ctx option_list fmap option_fmap option_map app snd];
    repeat split; rewrite <- ?app_assoc, ?app_nil_r; reflexivity.
Qed.

(** X21: when the server cannot make its socket, [seahorse_sharing_init]
    shows the error and [seahorse_sharing_cleanup] afterwards finds no
    server running, so it does not call the server's stop: the GPGME
    context that the start made or found is still held after the cleanup,
    and nothing has released it. *)
Theorem context_outlives_cleanup G (S : Hkp.start_answers) (A : avahi) (w : world) :
  Hkp.seahorse_hkp_server_is_running (hkp w) = false ->
  Hkp.err (Hkp.seahorse_hkp_server_start S (hkp w)) <> None ->
  exists w1 w2,
    seahorse_sharing_init G S A w = Some (tt, w1) /\
    seahorse_sharing_cleanup w1 = Some (tt, w2) /\
    Hkp.soup_server (hkp w2) = None /\
    Hkp.gpgme_ctx (hkp w2) <> None /\
    Hkp.gpgme_ctx (hkp w2) =
      Hkp.gpgme_ctx (Hkp.after_start (Hkp.seahorse_hkp_server_start S (hkp w))) /\
    forall c, ~ In (hkp_server (Hkp.gpgme_release c)) (skipn (List.length (trace w)) (trace w2)).
Proof.
  intros Hr He.
  destruct (ServerFacts.start_error_state S (hkp w) He) as (Hs & Hsoup & Hctx).
  destruct w as [g c p n alt s tr]. cbn [hkp trace] in *.
  unfold seahorse_sharing_init, seahorse_sharing_cleanup, start_sharing, bind, get, when.
  cbn [hkp]. rewrite Hr. cbn [negb]. unfold set_hkp. rewrite Hs. cbn [negb].
  unfold handle_error.
  destruct (Hkp.err (Hkp.seahorse_hkp_server_start S s)) as [e|]; [|contradiction].
  unfold emit.
  destruct g, c; eexists; eexists; (split; [reflexivity|]);
    unfold stop_sharing, stop_publishing, bind, get, when, when_some, emit, ret,
      set_share_name, set_avahi_group, set_avahi_client,
      Hkp.seahorse_hkp_server_is_running;
    cbn [avahi_group avahi_client avahi_poll share_name share_alternate hkp trace];
    rewrite Hsoup;
    cbn [avahi_group avahi_client avahi_poll share_name share_alternate hkp trace];
    (split; [reflexivity|]); cbn [hkp trace];
    (split; [exact Hsoup|]); (split; [exact Hctx|]); (split; [reflexivity|]);
    intros c'; rewrite <- ?app_assoc, skipn_app, skipn_all, Nat.sub_diag;
    cbn; intuition discriminate.
Qed.

Lemma context_outlives_cleanup_witness :
  exists w1 w2,
    seahorse_sharing_init Examples.glib_alice Samples.start_no_socket Examples.avahi_ok
      Samples.idle = Some (tt, w1) /\
    seahorse_sharing_cleanup w1 = Some (tt, w2) /\
    Hkp.gpgme_ctx (hkp w2) = Some 11%positive.
Proof.
  destruct (context_outlives_cleanup Examples.glib_alice Samples.start_no_socket
              Examples.avahi_ok Samples.idle eq_refl ltac:(discriminate))
    as (w1 & w2 & H1 & H2 & _ & _ & Hc & _).
  exists w1, w2. repeat split; [exact H1|exact H2|]. rewrite Hc. reflexivity.
Defined.

End PublisherFacts.

(** ** Facts about the daemon's logging *)

Module DaemonFacts.
Import Daemon.

(** X22: the syslog priority of a message with one GLib log level is the
    number of the bit of that level (error 2, which is LOG_CRIT, up to
    debug 7), whatever the recursion and fatal flags are; a level word with
    no level bit or with two of them gets LOG_ERR. *)
Theorem syslog_level_is_bit (k : Z) (fatal recursion : bool) :
  2 <= k <= 7 ->
  let flags :=
    Z.lor (if fatal then G_LOG_FLAG_FATAL else 0)
      (if recursion then G_LOG_FLAG_RECURSION else 0) in
  syslog_level (Z.lor (Z.shiftl 1 k) flags) = k /\
  syslog_level flags = LOG_ERR /\
  (forall j, 2 <= j <= 7 -> j <> k ->
     syslog_level (Z.lor (Z.lor (Z.shiftl 1 k) (Z.shiftl 1 j)) flags) = LOG_ERR).
Proof.
  intros Hk flags. subst flags.
  assert (Hcases : k = 2 \/ k = 3 \/ k = 4 \/ k = 5 \/ k = 6 \/ k = 7) by lia.
  split; [|split].
  - destruct Hcases as [->|[->|[->|[->|[->| ->]]]]]; destruct fatal, recursion; reflexivity.
  - destruct fatal, recursion; reflexivity.
  - intros j Hj Hne.
    assert (Hj' : j = 2 \/ j = 3 \/ j = 4 \/ j = 5 \/ j = 6 \/ j = 7) by lia.
    destruct Hcases as [->|[->|[->|[->|[->| ->]]]]];
      destruct Hj' as [->|[->|[->|[->|[->| ->]]]]];
      try contradiction; destruct fatal, recursion; reflexivity.
Qed.

Lemma syslog_level_is_bit_witness :
  syslog_level (Z.lor G_LOG_LEVEL_WARNING G_LOG_FLAG_FATAL) = LOG_WARNING.
Proof.
  destruct (syslog_level_is_bit 4 true false ltac:(lia)) as [H _]. exact H.
Defined.

End DaemonFacts.
